(** * qrgenerator.py: a shallow embedding and its verified properties

    The development follows src/qrgenerator.py function by function.
    Python [str] values are modelled as [string] (sequences of 8-bit
    characters, read as the code points 0..255), dictionaries as [gmap],
    and the calls into pyqrcode, PIL, pyzbar and the file system as
    oracles of a [world] record whose use is logged in a trace. *)

From Stdlib Require Import ZArith Ascii Bool Lia.
From stdpp Require Import base gmap strings list fin_maps.

Open Scope char_scope.
Open Scope stdpp_scope.
Open Scope nat_scope.

(** ** Python string methods used by the program *)

Module PyStr.

(** [s.startswith(p)] *)
Fixpoint startswith (p s : string) : bool :=
  match p, s with
  | EmptyString, _ => true
  | String _ _, EmptyString => false
  | String a p', String b s' => Ascii.eqb a b && startswith p' s'
  end.

(** [c in s] for a one-character string [c] *)
Fixpoint contains (c : ascii) (s : string) : bool :=
  match s with
  | EmptyString => false
  | String a s' => Ascii.eqb a c || contains c s'
  end.

(** [s.split(sep)] for a one-character separator: the result always has
    at least one element, and adjacent separators give empty fields. *)
Fixpoint split (sep : ascii) (s : string) : list string :=
  match s with
  | EmptyString => [EmptyString]
  | String a s' =>
      if Ascii.eqb a sep then EmptyString :: split sep s'
      else match split sep s' with
           | [] => [String a EmptyString]
           | w :: ws => String a w :: ws
           end
  end.

(** [s.split(sep, 1)]: at most one cut, at the first separator. *)
Fixpoint split1 (sep : ascii) (s : string) : list string :=
  match s with
  | EmptyString => [EmptyString]
  | String a s' =>
      if Ascii.eqb a sep then [EmptyString; s']
      else match split1 sep s' with
           | [] => [String a EmptyString]
           | w :: ws => String a w :: ws
           end
  end.

(** [s.replace(old, new)] for a non-empty [old]: the text is scanned from
    the left and every non-overlapping occurrence of [old] is replaced.
    [skip] counts the characters of a matched occurrence still to drop. *)
Fixpoint replace_from (old new : string) (skip : nat) (s : string) : string :=
  match s with
  | EmptyString => EmptyString
  | String a s' =>
      match skip with
      | S k => replace_from old new k s'
      | O =>
          if startswith old s
          then new +:+ replace_from old new (String.length old - 1) s'
          else String a (replace_from old new 0 s')
      end
  end.

Definition replace (old new s : string) : string := replace_from old new 0 s.

(** [str.isspace] on one character: the code points below 256 that
    Python counts as whitespace. *)
Definition isspace (a : ascii) : bool :=
  let n := nat_of_ascii a in
  ((9 <=? n) && (n <=? 13)) || ((28 <=? n) && (n <=? 32))
  || (n =? 133) || (n =? 160).

Fixpoint lstrip (s : string) : string :=
  match s with
  | EmptyString => EmptyString
  | String a s' => if isspace a then lstrip s' else s
  end.

(** [rstrip] drops the trailing whitespace: a character is kept when it
    is not whitespace or when something is kept after it. *)
Fixpoint rstrip (s : string) : string :=
  match s with
  | EmptyString => EmptyString
  | String a s' =>
      match rstrip s' with
      | EmptyString => if isspace a then EmptyString else String a EmptyString
      | r => String a r
      end
  end.

(** [s.strip()] *)
Definition strip (s : string) : string := rstrip (lstrip s).

(** [str.lower] on one character: A-Z, and the upper-case letters of the
    Latin-1 block (192..222 except the multiplication sign 215). *)
Definition lower_char (a : ascii) : ascii :=
  let n := nat_of_ascii a in
  if ((65 <=? n) && (n <=? 90))
     || ((192 <=? n) && (n <=? 222) && negb (n =? 215))
  then ascii_of_nat (n + 32) else a.

(** [s.lower()] *)
Fixpoint lower (s : string) : string :=
  match s with
  | EmptyString => EmptyString
  | String a s' => String (lower_char a) (lower s')
  end.

(** [len(s)] *)
Definition len (s : string) : nat := String.length s.

End PyStr.

(** ** The WiFi payload codec *)

(** Line 145-146 of [generate_wifi_qr]: the f-string that builds the payload. *)
Definition hidden_flag (hidden : bool) : string :=
  if hidden then "true" else "false".

Definition wifi_string (ssid password security : string) (hidden : bool) : string :=
  "WIFI:T:" +:+ security +:+ ";S:" +:+ ssid +:+ ";P:" +:+ password
    +:+ ";H:" +:+ hidden_flag hidden +:+ ";;".

(** Body of the loop of [parse_wifi_qr] (lines 204-206).  The tuple
    assignment [key, value = part.split(':', 1)] raises [ValueError] unless
    the list has exactly two elements; [None] stands for that exception. *)
Definition wifi_info_step (wifi_info : gmap string string) (part : string)
  : option (gmap string string) :=
  if PyStr.contains ":" part then
    match PyStr.split1 ":" part with
    | [key; value] => Some (<[key := value]> wifi_info)
    | _ => None
    end
  else Some wifi_info.

Fixpoint wifi_info_loop (parts : list string) (wifi_info : gmap string string)
  : option (gmap string string) :=
  match parts with
  | [] => Some wifi_info
  | part :: rest =>
      match wifi_info_step wifi_info part with
      | Some wifi_info' => wifi_info_loop rest wifi_info'
      | None => None
      end
  end.

(** Line 200 of [parse_wifi_qr]. *)
Definition wifi_parts (wifi_string : string) : list string :=
  PyStr.split ";" (PyStr.replace "WIFI:" EmptyString wifi_string).

(** Lines 200-206 of [parse_wifi_qr]: the dictionary [wifi_info] that the
    function then displays. *)
Definition wifi_info_of (wifi_string : string) : option (gmap string string) :=
  wifi_info_loop (wifi_parts wifi_string) ∅.

(** ** Values exchanged with the external libraries *)

(** An RGB triple, as in [color_map]. *)
Definition rgb : Type := (Z * Z * Z)%type.

(** A PIL image in mode RGB: its size and its pixel store. *)
Record image := Image {
  img_width : nat;
  img_height : nat;
  img_pixel : nat -> nat -> rgb
}.

Module PIL.

(** [Image.new('RGB', (w, h), color)] *)
Definition Image_new (w h : nat) (color : rgb) : image :=
  Image w h (fun _ _ => color).

(** [draw.rectangle([x1, y1, x2, y2], fill=fill)]: PIL fills the box with
    both corner points included. *)
Definition rectangle (x1 y1 x2 y2 : nat) (fill : rgb) (im : image) : image :=
  Image (img_width im) (img_height im)
    (fun x y =>
       if (x1 <=? x) && (x <=? x2) && (y1 <=? y) && (y <=? y2)
       then fill else img_pixel im x y).

(** [img.getpixel((x, y))]; [None] outside the image. *)
Definition getpixel (im : image) (x y : nat) : option rgb :=
  if (x <? img_width im) && (y <? img_height im)
  then Some (img_pixel im x y) else None.

End PIL.

(** The object returned by [pyqrcode.create]: the encoded text and the
    square module matrix [code] (a true cell is a dark module). *)
Record qrcode := QRCode {
  qr_text : string;
  code : list (list bool)
}.

(** An entry of the list returned by pyzbar's [decode]. *)
Record Decoded := {
  data : string;
  type : string
}.

Inductive exn :=
| IndexError
| ValueError
| LibraryError (what : string).

Inductive result (A : Type) :=
| Ok (a : A)
| Raise (e : exn).
Arguments Ok {A} a.
Arguments Raise {A} e.

(** ** The environment and the trace of a run *)

(** What the program asks of its environment.  Every field that can raise
    returns a [result]. *)
Record world := {
  pyqrcode_create : string -> result qrcode;
  qr_terminal : qrcode -> result string;
  qr_svg : qrcode -> Z -> result string;
  file_write : string -> string -> result unit;
  qr_png : qrcode -> string -> Z -> result unit;
  img_save : image -> string -> result unit;
  path_exists : string -> bool;
  Image_open : string -> result image;
  pyzbar_decode : image -> result (list Decoded);
  utf8_decode : string -> result string;
  strftime_now : string -> string
}.

(** The external calls that can raise, with their arguments. *)
Inductive extcall :=
| CCreate (raw_text : string)
| CTerminal (qr : qrcode)
| CSvg (qr : qrcode) (scale : Z)
| CFileWrite (path buffer : string)
| CPng (qr : qrcode) (path : string) (scale : Z)
| CImgSave (img : image) (path : string)
| CImageOpen (path : string)
| CDecode (img : image)
| CUtf8 (bytes : string).

(** The lines the program prints, one constructor per [print] statement. *)
Inductive line :=
| LTerminal (art : string)
| LSvgSaved (svg_path : string)
| LPngSaved (png_path : string)
| LFilesSaved
| LSvgPath (svg_path : string)
| LPngPath (png_path : string)
| LErrGenerating (e : exn)
| LErrColored (e : exn)
| LWifiGenerating
| LWifiSsid (ssid : string)
| LWifiSecurity (security : string)
| LWifiHidden (hidden : bool)
| LFileNotFound (file_name : string)
| LScanning
| LNoQrFound
| LDecodedOk
| LContent (decoded_text : string)
| LType (qr_type : string)
| LUrlDetected
| LPhoneDetected
| LEmailDetected
| LErrReading (e : exn)
| LWifiDetected
| LShowSsid (v : string)
| LShowPassword (v : string)
| LShowSecurity (v : string)
| LShowHidden (v : string)
| LErrParseWifi (e : exn).

Inductive event :=
| Printed (l : line)
| Did (c : extcall)
| Failed (c : extcall) (e : exn).

(** A computation: the trace it leaves and its value or exception. *)
Definition M (A : Type) : Type := (list event * result A)%type.

Definition ret {A} (a : A) : M A := ([], Ok a).

Definition bind {A B} (m : M A) (f : A -> M B) : M B :=
  match m with
  | (t, Ok a) => let (t', r) := f a in (t ++ t', r)
  | (t, Raise e) => (t, Raise e)
  end.

(** [try: m except Exception as e: h e] *)
Definition try_except {A} (m : M A) (h : exn -> M A) : M A :=
  match m with
  | (t, Raise e) => let (t', r) := h e in (t ++ t', r)
  | (t, Ok a) => (t, Ok a)
  end.

Definition print (l : line) : M unit := ([Printed l], Ok tt).

Definition call {A} (c : extcall) (r : result A) : M A :=
  match r with
  | Ok a => ([Did c], Ok a)
  | Raise e => ([Failed c e], Raise e)
  end.

(** An exception raised by the program's own expressions. *)
Definition lift {A} (r : result A) : M A := ([], r).

Notation "'let*' x := m 'in' k" := (bind m (fun x => k))
  (at level 10, x name, m at level 100, k at level 200, only parsing).
Notation "m >> k" := (bind m (fun _ => k))
  (at level 65, right associativity, only parsing).

Definition trace_of {A} (m : M A) : list event := fst m.
Definition outcome {A} (m : M A) : result A := snd m.

(** ** generate_colored_qr *)

(** [color_map] (lines 93-106): the entries in source order, and the
    dictionary built from them. *)
Definition color_table : list (string * rgb) :=
  [ ("black", (0, 0, 0)%Z);
    ("white", (255, 255, 255)%Z);
    ("red", (255, 0, 0)%Z);
    ("green", (0, 255, 0)%Z);
    ("blue", (0, 0, 255)%Z);
    ("yellow", (255, 255, 0)%Z);
    ("purple", (128, 0, 128)%Z);
    ("orange", (255, 165, 0)%Z);
    ("pink", (255, 192, 203)%Z);
    ("cyan", (0, 255, 255)%Z);
    ("navy", (0, 0, 128)%Z);
    ("darkgreen", (0, 100, 0)%Z) ].

Definition color_map : gmap string rgb := list_to_map color_table.

(** [color_map.get(name.lower(), dflt)] (lines 108-109). *)
Definition color_get (name : string) (dflt : rgb) : rgb :=
  default dflt (color_map !! PyStr.lower name).

Definition fg_rgb_of (fg_color : string) : rgb := color_get fg_color (0, 0, 0)%Z.
Definition bg_rgb_of (bg_color : string) : rgb := color_get bg_color (255, 255, 255)%Z.

Definition scale : nat := 10.

(** [modules[row][col]]: indexing past the end of a list raises. *)
Definition module_at (modules : list (list bool)) (row col : nat) : result bool :=
  match modules !! row with
  | Some cells =>
      match cells !! col with
      | Some b => Ok b
      | None => Raise IndexError
      end
  | None => Raise IndexError
  end.

(** A [for] loop over a list of indices with a body that can raise. *)
Fixpoint for_each {S : Type} (xs : list nat) (body : nat -> S -> result S) (s : S)
  : result S :=
  match xs with
  | [] => Ok s
  | x :: rest =>
      match body x s with
      | Ok s' => for_each rest body s'
      | Raise e => Raise e
      end
  end.

(** Lines 124-129: the body of the inner loop. *)
Definition draw_module (modules : list (list bool)) (fg_rgb : rgb)
    (row col : nat) (img : image) : result image :=
  match module_at modules row col with
  | Ok true =>
      let x1 := col * scale in
      let y1 := row * scale in
      let x2 := x1 + scale in
      let y2 := y1 + scale in
      Ok (PIL.rectangle x1 y1 x2 y2 fg_rgb img)
  | Ok false => Ok img
  | Raise e => Raise e
  end.

(** Lines 122-129: the two nested loops. *)
Definition draw_modules (modules : list (list bool)) (module_count : nat)
    (fg_rgb : rgb) (img : image) : result image :=
  for_each (seq 0 module_count)
    (fun row => for_each (seq 0 module_count) (draw_module modules fg_rgb row))
    img.

(** Lines 108-129: the image that the custom path builds in memory. *)
Definition render_colored (qr_code : qrcode) (fg_color bg_color : string)
  : result image :=
  let fg_rgb := fg_rgb_of fg_color in
  let bg_rgb := bg_rgb_of bg_color in
  let modules := code qr_code in
  let module_count := length modules in
  let img_size := module_count * scale in
  let img := PIL.Image_new img_size img_size bg_rgb in
  draw_modules modules module_count fg_rgb img.

Section Program.

Variable w : world.

(** [qr_code.png(path, scale=10)], the writer of the encoding library. *)
Definition builtin_png (qr_code : qrcode) (path : string) : M unit :=
  call (CPng qr_code path 10) (qr_png w qr_code path 10).

(** The [try] block of [generate_colored_qr] (lines 92-131). *)
Definition colored_try (qr_code : qrcode) (output_path fg_color bg_color : string)
  : M unit :=
  let* img := lift (render_colored qr_code fg_color bg_color) in
  call (CImgSave img output_path) (img_save w img output_path).

Definition generate_colored_qr (qr_code : qrcode)
    (output_path fg_color bg_color : string) : M unit :=
  try_except (colored_try qr_code output_path fg_color bg_color)
    (fun e => print (LErrColored e) >> builtin_png qr_code output_path).

(** ** generate_qr *)

(** Lines 53-58 and 73-76: the choice of the PNG writer. *)
Definition write_png (qr_code : qrcode) (png_path fg_color bg_color : string)
  : M unit :=
  if String.eqb fg_color "black" && String.eqb bg_color "white"
  then builtin_png qr_code png_path
  else generate_colored_qr qr_code png_path fg_color bg_color.

(** Lines 43-46 and 68-70: the SVG text and its file. *)
Definition write_svg (qr_code : qrcode) (svg_path : string) : M unit :=
  let* svg_buffer := call (CSvg qr_code 10) (qr_svg w qr_code 10) in
  call (CFileWrite svg_path svg_buffer) (file_write w svg_path svg_buffer).

(** The [try] block of [generate_qr] (lines 36-80). *)
Definition generate_qr_try (raw_text file_name output_format fg_color bg_color : string)
  : M unit :=
  let* qr_code := call (CCreate raw_text) (pyqrcode_create w raw_text) in
  let* art := call (CTerminal qr_code) (qr_terminal w qr_code) in
  print (LTerminal art) >>
  let svg_path := "qrcodes/" +:+ file_name +:+ ".svg" in
  let png_path := "qrcodes/" +:+ file_name +:+ ".png" in
  if String.eqb (PyStr.lower output_format) "svg" then
    write_svg qr_code svg_path >>
    print (LSvgSaved svg_path)
  else if String.eqb (PyStr.lower output_format) "png" then
    write_png qr_code png_path fg_color bg_color >>
    print (LPngSaved png_path)
  else if String.eqb (PyStr.lower output_format) "both" then
    write_svg qr_code svg_path >>
    write_png qr_code png_path fg_color bg_color >>
    print LFilesSaved >>
    print (LSvgPath svg_path) >>
    print (LPngPath png_path)
  else ret tt.

Definition generate_qr (raw_text file_name output_format fg_color bg_color : string)
  : M bool :=
  try_except
    (generate_qr_try raw_text file_name output_format fg_color bg_color >> ret true)
    (fun e => print (LErrGenerating e) >> ret false).

(** ** generate_wifi_qr *)

Definition generate_wifi_qr (ssid password security : string) (hidden : bool)
    (file_name : string) : M bool :=
  let file_name :=
    match file_name with
    | EmptyString => "wifi_" +:+ ssid +:+ "_" +:+ strftime_now w "%Y%m%d_%H%M%S"
    | _ => file_name
    end in
  let wifi_string := wifi_string ssid password security hidden in
  print LWifiGenerating >>
  print (LWifiSsid ssid) >>
  print (LWifiSecurity security) >>
  print (LWifiHidden hidden) >>
  generate_qr wifi_string file_name "png" "black" "white".

(** ** parse_wifi_qr and read_qr *)

Definition parse_wifi_qr (wifi_string : string) : M unit :=
  try_except
    (let* wifi_info :=
       lift (match wifi_info_of wifi_string with
             | Some d => Ok d
             | None => Raise ValueError
             end) in
     print LWifiDetected >>
     print (LShowSsid (default "N/A" (wifi_info !! "S"))) >>
     print (LShowPassword (default "N/A" (wifi_info !! "P"))) >>
     print (LShowSecurity (default "N/A" (wifi_info !! "T"))) >>
     print (LShowHidden (default "false" (wifi_info !! "H"))))
    (fun e => print (LErrParseWifi e)).

(** Lines 180-187 of [read_qr]. *)
Definition classify (decoded_text : string) : M unit :=
  if PyStr.startswith "WIFI:" decoded_text then parse_wifi_qr decoded_text
  else if PyStr.startswith "http" decoded_text then print LUrlDetected
  else if PyStr.startswith "tel:" decoded_text then print LPhoneDetected
  else if PyStr.startswith "mailto:" decoded_text then print LEmailDetected
  else ret tt.

(** The [try] block of [read_qr] (lines 159-189). *)
Definition read_qr_try (file_name : string) : M bool :=
  if negb (path_exists w file_name) then
    print (LFileNotFound file_name) >> ret false
  else
    print LScanning >>
    let* image := call (CImageOpen file_name) (Image_open w file_name) in
    let* qr_data := call (CDecode image) (pyzbar_decode w image) in
    match qr_data with
    | [] => print LNoQrFound >> ret false
    | first :: _ =>
        let* decoded_text := call (CUtf8 (data first)) (utf8_decode w (data first)) in
        let qr_type := type first in
        print LDecodedOk >>
        print (LContent decoded_text) >>
        print (LType qr_type) >>
        classify decoded_text >>
        ret true
    end.

Definition read_qr (file_name : string) : M bool :=
  try_except (read_qr_try file_name)
    (fun e => print (LErrReading e) >> ret false).

End Program.

(** ** validate_input *)

Definition is_empty (s : string) : bool :=
  match s with
  | EmptyString => true
  | _ => false
  end.

Definition validate_input (text : string) : bool * string :=
  if is_empty text || is_empty (PyStr.strip text) then
    (false, "Input text cannot be empty")
  else if 2953 <? PyStr.len text then
    (false, "Input text is too long for QR code")
  else (true, "Valid").

(** [get_available_colors] *)
Definition get_available_colors : list string :=
  ["black"; "white"; "red"; "green"; "blue"; "yellow"; "purple";
   "orange"; "pink"; "cyan"; "navy"; "darkgreen"].

(** ** The decoder as the specification words it

    Section 4.1 of the specification has [decode] strip a leading tag only.
    This second reading is kept apart from [wifi_info_of], which follows
    the source, so that the two can be compared. *)

Fixpoint drop_chars (n : nat) (s : string) : string :=
  match n, s with
  | S k, String _ s' => drop_chars k s'
  | _, _ => s
  end.

Definition strip_leading_tag (payload : string) : string :=
  if PyStr.startswith "WIFI:" payload then drop_chars 5 payload else payload.

Definition decode_leading_only (payload : string) : option (gmap string string) :=
  wifi_info_loop (PyStr.split ";" (strip_leading_tag payload)) ∅.

(** The text consists of whitespace only (possibly of nothing). *)
Fixpoint all_space (s : string) : bool :=
  match s with
  | EmptyString => true
  | String a s' => PyStr.isspace a && all_space s'
  end.

(** ** Concrete inputs used by the examples *)

(** A text of 2954 characters, one more than [validate_input] accepts. *)
Definition long_text : string :=
  String.string_of_list_ascii (repeat "a"%char 2954).

(** ** Vocabulary for the rendering claims *)

(** The matrix has [n] rows of [n] cells. *)
Definition square (n : nat) (modules : list (list bool)) : Prop :=
  length modules = n /\ Forall (fun cells => length cells = n) modules.

(** The module at [row], [col] is dark. *)
Definition dark (modules : list (list bool)) (row col : nat) : bool :=
  match module_at modules row col with
  | Ok true => true
  | _ => false
  end.

(** Pixel [x], [y] lies in the box that line 129 fills for the module. *)
Definition covers (row col x y : nat) : bool :=
  (col * scale <=? x) && (x <=? col * scale + scale)
  && (row * scale <=? y) && (y <=? row * scale + scale).

(** Pixel [x], [y] lies in the box of some dark module. *)
Definition painted (modules : list (list bool)) (n x y : nat) : bool :=
  existsb (fun row =>
             existsb (fun col => dark modules row col && covers row col x y)
                     (seq 0 n))
          (seq 0 n).

(** [img'] is [img] with the pixels selected by [hit] set to [fill]. *)
Definition paints (hit : nat -> nat -> bool) (fill : rgb) (img img' : image) : Prop :=
  img_width img' = img_width img /\
  img_height img' = img_height img /\
  forall x y, img_pixel img' x y = if hit x y then fill else img_pixel img x y.

(** The first dark module in row-major order, if any. *)
Definition first_dark_in_row (cells : list bool) : option nat :=
  fst <$> list_find (fun b => b = true) cells.

Fixpoint first_dark_from (row : nat) (modules : list (list bool)) : option (nat * nat) :=
  match modules with
  | [] => None
  | cells :: rest =>
      match first_dark_in_row cells with
      | Some col => Some (row, col)
      | None => first_dark_from (S row) rest
      end
  end.

Definition first_dark (modules : list (list bool)) : option (nat * nat) :=
  first_dark_from 0 modules.

(** The pixel of a rendering result. *)
Definition pixel_of (r : result image) (x y : nat) : option rgb :=
  match r with
  | Ok img => PIL.getpixel img x y
  | Raise _ => None
  end.

(** A row of modules written as a text of 0 and 1. *)
Fixpoint cells_of (bits : string) : list bool :=
  match bits with
  | EmptyString => []
  | String c rest => Ascii.eqb c "1" :: cells_of rest
  end.

(** A version-1 symbol (21 by 21 modules, no quiet zone) for the text test,
    error level H, mask pattern 0.  As in every QR symbol the finder
    pattern occupies the top-left corner, so module (0, 0) is dark. *)
Definition sample_rows : list string :=
  [ "111111101110101111111";
    "100000100110001000001";
    "101110100010001011101";
    "101110101001101011101";
    "101110100011001011101";
    "100000100101001000001";
    "111111101010101111111";
    "000000000100100000000";
    "001011101100010001001";
    "000110011000101100011";
    "111110101000111101111";
    "111101001101100110010";
    "110001101110000101011";
    "000000001011100001001";
    "111111100110000011011";
    "100000101110101000010";
    "101110101011001011011";
    "101110100100001100010";
    "101110101000110100101";
    "100000100111011111010";
    "111111100010011100111" ].

Definition sample_qr : qrcode := QRCode "test" (map cells_of sample_rows).

(** A 21 by 21 grid whose module (0, 0) is light and whose first dark
    module is (0, 1); it exercises the other branch of the corner rule. *)
Definition light_corner_qr : qrcode :=
  QRCode "grid" (map cells_of
    ("011111101110101111111" :: tail sample_rows)).

(** ** Vocabulary for the claims on traces *)

(** The exceptions raised by external calls during a run, in order. *)
Definition raised_in (t : list event) : list exn :=
  omap (fun ev => match ev with Failed _ e => Some e | _ => None end) t.

(** The external calls attempted during a run, in order. *)
Definition calls_in (t : list event) : list extcall :=
  omap (fun ev => match ev with
                  | Did c | Failed c _ => Some c
                  | Printed _ => None
                  end) t.

(** The operation a call stands for, without its arguments. *)
Inductive operation :=
| OpCreate | OpTerminal | OpSvg | OpFileWrite | OpPng | OpImgSave
| OpImageOpen | OpDecode | OpUtf8.

Definition operation_of (c : extcall) : operation :=
  match c with
  | CCreate _ => OpCreate
  | CTerminal _ => OpTerminal
  | CSvg _ _ => OpSvg
  | CFileWrite _ _ => OpFileWrite
  | CPng _ _ _ => OpPng
  | CImgSave _ _ => OpImgSave
  | CImageOpen _ => OpImageOpen
  | CDecode _ => OpDecode
  | CUtf8 _ => OpUtf8
  end.

#[global] Instance operation_eq_dec : EqDecision operation.
Proof. solve_decision. Defined.

(** A failure that the handler of [generate_colored_qr] does not see:
    any failed call but the [img.save] of the custom path. *)
Definition escaping_failure (ev : event) : bool :=
  match ev with
  | Failed (CImgSave _ _) _ => false
  | Failed _ _ => true
  | _ => false
  end.

(** The files a run has written. *)
Inductive artifact :=
| SvgFile (path : string)
| BuiltinPng (path : string) (scale : Z)
| ColoredPng (path : string).

Definition artifacts_in (t : list event) : list artifact :=
  omap (fun ev => match ev with
                  | Did (CFileWrite path _) => Some (SvgFile path)
                  | Did (CPng _ path s) => Some (BuiltinPng path s)
                  | Did (CImgSave _ path) => Some (ColoredPng path)
                  | _ => None
                  end) t.

(** The lines printed by a run. *)
Definition printed_in (t : list event) : list line :=
  omap (fun ev => match ev with Printed l => Some l | _ => None end) t.

(** The file name [generate_wifi_qr] ends up with (lines 141-142). *)
Definition wifi_file_name (w : world) (ssid file_name : string) : string :=
  match file_name with
  | EmptyString => "wifi_" +:+ ssid +:+ "_" +:+ strftime_now w "%Y%m%d_%H%M%S"
  | _ => file_name
  end.

(** ** Concrete environments used by the examples *)

(** Every call succeeds but one: [qr_code.svg(scale=10)] is refused, as
    the source calls it without the file argument that the method of the
    encoding library requires.  The scanned image holds one WiFi code. *)
Definition calm_world : world := {|
  pyqrcode_create := fun raw_text => Ok (QRCode raw_text (code sample_qr));
  qr_terminal := fun _ => Ok "(terminal art)";
  qr_svg := fun _ _ => Raise (LibraryError "TypeError: svg is missing the argument file");
  file_write := fun _ _ => Ok tt;
  qr_png := fun _ _ _ => Ok tt;
  img_save := fun _ _ => Ok tt;
  path_exists := fun path => String.eqb path "qrcodes/wifi.png";
  Image_open := fun _ => Ok (PIL.Image_new 1 1 (0, 0, 0)%Z);
  pyzbar_decode := fun _ =>
    Ok [ {| data := "WIFI:T:WPA;S:HomeNet;P:secret123;H:false;;"; type := "QRCODE" |} ];
  utf8_decode := fun bytes => Ok bytes;
  strftime_now := fun _ => "20240101_120000"
|}.

(** As [calm_world], but [img.save] is refused (PIL opens the file for
    reading and writing) while the writer of the encoding library, which
    opens it for writing only, succeeds. *)
Definition save_denied_world : world := {|
  pyqrcode_create := pyqrcode_create calm_world;
  qr_terminal := qr_terminal calm_world;
  qr_svg := qr_svg calm_world;
  file_write := file_write calm_world;
  qr_png := qr_png calm_world;
  img_save := fun _ _ => Raise (LibraryError "Permission denied");
  path_exists := path_exists calm_world;
  Image_open := Image_open calm_world;
  pyzbar_decode := pyzbar_decode calm_world;
  utf8_decode := utf8_decode calm_world;
  strftime_now := strftime_now calm_world
|}.

(** As [calm_world], but the scanned image holds no code. *)
Definition blank_image_world : world := {|
  pyqrcode_create := pyqrcode_create calm_world;
  qr_terminal := qr_terminal calm_world;
  qr_svg := qr_svg calm_world;
  file_write := file_write calm_world;
  qr_png := qr_png calm_world;
  img_save := img_save calm_world;
  path_exists := path_exists calm_world;
  Image_open := Image_open calm_world;
  pyzbar_decode := fun _ => Ok [];
  utf8_decode := utf8_decode calm_world;
  strftime_now := strftime_now calm_world
|}.

(** ** Vocabulary for the further properties of the codec *)


(** An entry that [parse_wifi_qr] can store: the key holds neither colon
    nor semicolon, the value holds no semicolon. *)
Definition clean_entry (key value : string) : Prop :=
  PyStr.contains ":" key = false /\
  PyStr.contains ";" key = false /\
  PyStr.contains ";" value = false.

(** The two paths that [generate_qr] writes to (lines 44, 51, 64 and 65). *)
Definition svg_path_of (file_name : string) : string :=
  "qrcodes/" +:+ file_name +:+ ".svg".

Definition png_path_of (file_name : string) : string :=
  "qrcodes/" +:+ file_name +:+ ".png".

(** As [calm_world], but the image holds two codes. *)
Definition two_codes_world : world := {|
  pyqrcode_create := pyqrcode_create calm_world;
  qr_terminal := qr_terminal calm_world;
  qr_svg := qr_svg calm_world;
  file_write := file_write calm_world;
  qr_png := qr_png calm_world;
  img_save := img_save calm_world;
  path_exists := path_exists calm_world;
  Image_open := Image_open calm_world;
  pyzbar_decode := fun _ =>
    Ok [ {| data := "tel:+15550100"; type := "QRCODE" |};
         {| data := "https://example.org"; type := "QRCODE" |} ];
  utf8_decode := utf8_decode calm_world;
  strftime_now := strftime_now calm_world
|}.

(** As [calm_world], but the library PNG writer and [img.save] both fail. *)
Definition no_png_world : world := {|
  pyqrcode_create := pyqrcode_create calm_world;
  qr_terminal := qr_terminal calm_world;
  qr_svg := qr_svg calm_world;
  file_write := file_write calm_world;
  qr_png := fun _ _ _ => Raise (LibraryError "No space left on device");
  img_save := fun _ _ => Raise (LibraryError "No space left on device");
  path_exists := path_exists calm_world;
  Image_open := fun _ => Raise (LibraryError "cannot identify image file");
  pyzbar_decode := pyzbar_decode calm_world;
  utf8_decode := utf8_decode calm_world;
  strftime_now := strftime_now calm_world
|}.

(** As [calm_world], but the encoder refuses every text. *)
Definition no_encoder_world : world := {|
  pyqrcode_create := fun _ => Raise (LibraryError "cannot encode");
  qr_terminal := qr_terminal calm_world;
  qr_svg := qr_svg calm_world;
  file_write := file_write calm_world;
  qr_png := qr_png calm_world;
  img_save := img_save calm_world;
  path_exists := path_exists calm_world;
  Image_open := Image_open calm_world;
  pyzbar_decode := fun _ => Raise (LibraryError "zbar failure");
  utf8_decode := fun _ => Raise (LibraryError "invalid start byte");
  strftime_now := strftime_now calm_world
|}.

(** The line announces the kind of content that [read_qr] detected. *)
Definition is_tag_line (l : line) : bool :=
  match l with
  | LWifiDetected | LUrlDetected | LPhoneDetected | LEmailDetected => true
  | _ => false
  end.

(** ** The command line: path_check and main *)

Module Cli.

(** The namespace returned by [parser.parse_args()].  An option that was
    not given is [None]; [format], [fg_color] and [bg_color] have defaults
    and are limited by argparse to their choices. *)
Record args := Args {
  input : option string;
  output : option string;
  decode : option string;
  format : string;
  fg_color : string;
  bg_color : string;
  wifi : option (list string)
}.

(** The truth value of an optional text: [None] and the empty text are
    false. *)
Definition given (o : option string) : bool :=
  match o with
  | Some (String _ _) => true
  | _ => false
  end.

(** [o if o else dflt] *)
Definition or_else (o : option string) (dflt : string) : string :=
  match o with
  | Some (String a s) => String a s
  | _ => dflt
  end.

(** The questions of the interactive mode, one per [input] call. *)
Inductive prompt :=
| AskChoice | AskText | AskSsid | AskPassword | AskSecurity | AskHidden | AskPath.

(** What [input] does: it returns the line typed, raises EOFError at the
    end of the input, or raises KeyboardInterrupt. *)
Inductive keyboard :=
| Typed (answer : string)
| EndOfInput
| CtrlC.

(** The terminal and the directory creation. *)
Record console := {
  input_line : prompt -> keyboard;
  makedirs : string -> result unit
}.

(** The lines printed by [path_check] and [main], one constructor per
    [print] statement, with the values it formats. *)
Inductive mline :=
| MCreatingDir (path : string)
| MDirCreated
| MBanner
| MWifiNeedsArgs
| MWifiUsage
| MWifiDone
| MDecodeDone
| MRejected (message : string)
| MGenerating
| MText (text : string)
| MFormat (format : string)
| MColors (fg_color bg_color : string)
| MGenerated
| MMenuTitle
| MMenuChoose
| MMenuText
| MMenuWifi
| MMenuDecode
| MInvalidChoice
| MGoodbye
| MUnexpected (e : exn)
| MTraceback (e : exn).

Inductive tevent :=
| Shown (l : mline)
| Inner (ev : event)
| Asked (p : prompt) (k : keyboard)
| MakeDirs (path : string) (r : result unit).

(** How a computation of the top level ends: with a value, with an
    exception of class Exception, or with KeyboardInterrupt. *)
Inductive ending (A : Type) :=
| Done (a : A)
| Threw (e : exn)
| Interrupt.
Arguments Done {A} a.
Arguments Threw {A} e.
Arguments Interrupt {A}.

Definition Top (A : Type) : Type := (list tevent * ending A)%type.

Definition tret {A} (a : A) : Top A := ([], Done a).

Definition tbind {A B} (m : Top A) (f : A -> Top B) : Top B :=
  match m with
  | (t, Done a) => let (t', r) := f a in (t ++ t', r)
  | (t, Threw e) => (t, Threw e)
  | (t, Interrupt) => (t, Interrupt)
  end.

(** [try: m except KeyboardInterrupt: on_interrupt except Exception as e: on_error e] *)
Definition ttry {A} (m : Top A) (on_interrupt : Top A) (on_error : exn -> Top A) : Top A :=
  match m with
  | (t, Done a) => (t, Done a)
  | (t, Interrupt) => let (t', r) := on_interrupt in (t ++ t', r)
  | (t, Threw e) => let (t', r) := on_error e in (t ++ t', r)
  end.

Definition show (l : mline) : Top unit := ([Shown l], Done tt).

(** A call of one of the functions modelled above, run to its end. *)
Definition run {A} (m : M A) : Top A :=
  (Inner <$> trace_of m,
   match outcome m with
   | Ok a => Done a
   | Raise e => Threw e
   end).

(** [input(prompt)] *)
Definition ask (c : console) (p : prompt) : Top string :=
  ([Asked p (input_line c p)],
   match input_line c p with
   | Typed answer => Done answer
   | EndOfInput => Threw (LibraryError "EOFError")
   | CtrlC => Interrupt
   end).

Notation "'let+' x := m 'in' k" := (tbind m (fun x => k))
  (at level 10, x name, m at level 100, k at level 200, only parsing).
Notation "m >>> k" := (tbind m (fun _ => k))
  (at level 65, right associativity, only parsing).

Section Main.

Variable w : world.
Variable c : console.

(** [path_check] (lines 218-224). *)
Definition path_check : Top unit :=
  let path := "qrcodes" in
  if negb (path_exists w path) then
    show (MCreatingDir path) >>>
    (([MakeDirs path (makedirs c path)],
      match makedirs c path with
      | Ok _ => Done tt
      | Raise e => Threw e
      end) : Top unit) >>>
    show MDirCreated
  else tret tt.

(** Lines 280-295: the WiFi branch, entered when [args.wifi] is a
    non-empty list. *)
Definition main_wifi (a : args) (values : list string) : Top unit :=
  match values with
  | ssid :: password :: more =>
      let security :=
        match more with
        | s :: _ => s
        | [] => "WPA"
        end in
      let hidden :=
        match more with
        | _ :: h :: _ => String.eqb (PyStr.lower h) "true"
        | _ => false
        end in
      let file_name :=
        or_else (output a)
          ("wifi_" +:+ ssid +:+ "_" +:+ strftime_now w "%Y%m%d_%H%M%S") in
      let+ ok := run (generate_wifi_qr w ssid password security hidden file_name) in
      if ok then show MWifiDone else tret tt
  | _ =>
      show MWifiNeedsArgs >>> show MWifiUsage
  end.

(** Lines 298-301. *)
Definition main_decode (path : string) : Top unit :=
  let+ ok := run (read_qr w path) in
  if ok then show MDecodeDone else tret tt.

(** Lines 304-320. *)
Definition main_input (a : args) (text : string) : Top unit :=
  let (is_valid, message) := validate_input text in
  if negb is_valid then show (MRejected message)
  else
    let file_name := or_else (output a) (strftime_now w "%Y-%m-%d_%H-%M-%S") in
    show MGenerating >>>
    show (MText text) >>>
    show (MFormat (format a)) >>>
    show (MColors (fg_color a) (bg_color a)) >>>
    let+ ok := run (generate_qr w text file_name (format a) (fg_color a) (bg_color a)) in
    if ok then show MGenerated else tret tt.

(** Lines 322-357: the interactive mode. *)
Definition main_interactive : Top unit :=
  show MMenuTitle >>>
  show MMenuChoose >>>
  show MMenuText >>>
  show MMenuWifi >>>
  show MMenuDecode >>>
  let+ typed := ask c AskChoice in
  let choice := PyStr.strip typed in
  if String.eqb choice "1" then
    let+ raw_text := ask c AskText in
    let (is_valid, message) := validate_input raw_text in
    if negb is_valid then show (MRejected message)
    else
      let file_name := strftime_now w "%Y-%m-%d_%H-%M-%S" in
      let+ ok := run (generate_qr w raw_text file_name "png" "black" "white") in
      if ok then show MGenerated else tret tt
  else if String.eqb choice "2" then
    let+ ssid := ask c AskSsid in
    let+ password := ask c AskPassword in
    let+ typed_security := ask c AskSecurity in
    let security :=
      match typed_security with
      | EmptyString => "WPA"
      | _ => typed_security
      end in
    let+ typed_hidden := ask c AskHidden in
    let hidden := PyStr.startswith "y" (PyStr.lower typed_hidden) in
    let file_name := "wifi_" +:+ ssid +:+ "_" +:+ strftime_now w "%Y%m%d_%H%M%S" in
    let+ ok := run (generate_wifi_qr w ssid password security hidden file_name) in
    if ok then show MWifiDone else tret tt
  else if String.eqb choice "3" then
    let+ file_path := ask c AskPath in
    let+ ok := run (read_qr w file_path) in
    if ok then show MDecodeDone else tret tt
  else show MInvalidChoice.

(** The [try] block of [main] (lines 279-357). *)
Definition main_try (a : args) : Top unit :=
  match wifi a with
  | Some (v :: values) => main_wifi a (v :: values)
  | _ =>
      match decode a with
      | Some (String x path) => main_decode (String x path)
      | _ =>
          match input a with
          | Some (String x text) => main_input a (String x text)
          | _ => main_interactive
          end
      end
  end.

(** [main] from line 276 on, for the arguments that [parser.parse_args()]
    has returned; a command line on which the parser exits (a request for
    help, a value outside the choices) gives no run of this definition.
    KeyboardInterrupt is modelled where [input] raises it; one that
    arrives while an orchestrator is running is not. *)
Definition main (a : args) : Top unit :=
  show MBanner >>>
  ttry (main_try a)
    (show MGoodbye)
    (fun e => show (MUnexpected e) >>> show (MTraceback e)).

End Main.

(** Lines 366-368: the program.  What exists changes when the directory
    is created, so [main] runs in [w] when [path_check] found the
    directory and in [created], the environment as it is after
    [os.makedirs], when it was missing; nothing is assumed on how
    [created] answers. *)
Definition program (w created : world) (c : console) (a : args) : Top unit :=
  path_check w c >>>
  main (if path_exists w "qrcodes" then w else created) c a.

(** An environment after the creation of a directory: the path now
    exists, and opening it as an image fails. *)
Definition after_makedirs (w : world) (path : string) : world := {|
  pyqrcode_create := pyqrcode_create w;
  qr_terminal := qr_terminal w;
  qr_svg := qr_svg w;
  file_write := file_write w;
  qr_png := qr_png w;
  img_save := img_save w;
  path_exists := fun p => String.eqb p path || path_exists w p;
  Image_open := fun p =>
    if String.eqb p path then Raise (LibraryError "IsADirectoryError")
    else Image_open w p;
  pyzbar_decode := pyzbar_decode w;
  utf8_decode := utf8_decode w;
  strftime_now := strftime_now w
|}.

(** The events of the orchestrators inside a run of the top level. *)
Definition inner_events (t : list tevent) : list event :=
  omap (fun ev => match ev with Inner e => Some e | _ => None end) t.

(** The lines of the top level in a run. *)
Definition shown_in (t : list tevent) : list mline :=
  omap (fun ev => match ev with Shown l => Some l | _ => None end) t.

(** The questions asked in a run. *)
Definition asked_in (t : list tevent) : list prompt :=
  omap (fun ev => match ev with Asked p _ => Some p | _ => None end) t.

(** Arguments with the defaults of the parser and nothing given. *)
Definition no_args : args :=
  Args None None None "png" "black" "white" None.

(** A user who picks WiFi in the menu and answers every question. *)
Definition wifi_user : console := {|
  input_line := fun p =>
    match p with
    | AskChoice => Typed " 2 "
    | AskSsid => Typed "HomeNet"
    | AskPassword => Typed "secret123"
    | AskSecurity => Typed EmptyString
    | AskHidden => Typed "Yes"
    | _ => Typed EmptyString
    end;
  makedirs := fun _ => Ok tt
|}.

(** A user who interrupts at the first question; the directory cannot be
    created. *)
Definition impatient_user : console := {|
  input_line := fun _ => CtrlC;
  makedirs := fun _ => Raise (LibraryError "Permission denied")
|}.

(** The input ends before the first answer. *)
Definition closed_input : console := {|
  input_line := fun _ => EndOfInput;
  makedirs := fun _ => Ok tt
|}.

(** Some task was given on the command line: a WiFi list, a path to
    decode or a text to encode. *)
Definition has_task (a : args) : bool :=
  match wifi a with
  | Some (_ :: _) => true
  | _ => given (decode a) || given (input a)
  end.

(** A prompt was answered by KeyboardInterrupt, or by the end of input. *)
Definition interrupted_in (t : list tevent) : bool :=
  existsb (fun ev => match ev with Asked _ CtrlC => true | _ => false end) t.

Definition input_ended_in (t : list tevent) : bool :=
  existsb (fun ev => match ev with Asked _ EndOfInput => true | _ => false end) t.

Definition is_goodbye (l : mline) : bool :=
  match l with
  | MGoodbye => true
  | _ => false
  end.

Definition is_unexpected (l : mline) : bool :=
  match l with
  | MUnexpected _ => true
  | _ => false
  end.





(** A computation of the top level ends as its prompts were answered: it
    ends with KeyboardInterrupt exactly when a prompt was interrupted,
    with an exception exactly when the input ended at a prompt, in both
    cases before any orchestrator was called, and it has shown neither
    the goodbye line nor the unexpected-error line. *)
Definition ends_as_answered (m : Top unit) : Prop :=
  match snd m with
  | Done _ => interrupted_in (fst m) = false /\ input_ended_in (fst m) = false
  | Threw _ =>
      interrupted_in (fst m) = false /\ input_ended_in (fst m) = true /\
      inner_events (fst m) = []
  | Interrupt =>
      interrupted_in (fst m) = true /\ input_ended_in (fst m) = false /\
      inner_events (fst m) = []
  end /\
  existsb is_goodbye (shown_in (fst m)) = false /\
  existsb is_unexpected (shown_in (fst m)) = false.

(** Lines 345-348: what the WiFi entry of the menu makes of the answers. *)
Definition menu_security (typed : string) : string :=
  match typed with
  | EmptyString => "WPA"
  | _ => typed
  end.

Definition menu_hidden (typed : string) : bool :=
  PyStr.startswith "y" (PyStr.lower typed).

Definition menu_wifi_file_name (w : world) (ssid : string) : string :=
  "wifi_" +:+ ssid +:+ "_" +:+ strftime_now w "%Y%m%d_%H%M%S".

(** A user who picks the text entry of the menu and types hello. *)
Definition text_user : console := {|
  input_line := fun p =>
    match p with
    | AskChoice => Typed "1"
    | _ => Typed "hello"
    end;
  makedirs := fun _ => Ok tt
|}.

End Cli.

(** * Properties *)

(** ** String lemmas *)

Module PyStrFacts.
Import PyStr.

Lemma app_cons a s t : String a s +:+ t = String a (s +:+ t).
Proof. reflexivity. Qed.

Lemma app_empty t : EmptyString +:+ t = t.
Proof. reflexivity. Qed.

Lemma contains_false_cons c a s :
  contains c (String a s) = false -> Ascii.eqb a c = false /\ contains c s = false.
Proof. simpl. apply orb_false_elim. Qed.

(** A field that holds no separator is cut off whole. *)
Lemma split_field sep s t :
  contains sep s = false ->
  split sep (s +:+ String sep t) = s :: split sep t.
Proof.
  induction s as [|a s IH]; intros H.
  - rewrite app_empty. simpl. now rewrite Ascii.eqb_refl.
  - apply contains_false_cons in H as [Ha Hs].
    rewrite app_cons. simpl. rewrite Ha, (IH Hs). reflexivity.
Qed.

(** A text that starts with [p] is [p] followed by something. *)
Lemma startswith_inv p u : startswith p u = true -> exists r, u = p +:+ r.
Proof.
  revert u. induction p as [|a p IH]; intros u H.
  - exists u. reflexivity.
  - destruct u as [|b u]; [discriminate|].
    simpl in H. apply andb_true_iff in H as [Hab Hp].
    apply Ascii.eqb_eq in Hab as ->.
    destruct (IH _ Hp) as [r ->]. exists r. reflexivity.
Qed.

Lemma startswith_cons a p b s :
  startswith (String a p) (String b s) = Ascii.eqb a b && startswith p s.
Proof. reflexivity. Qed.

Lemma startswith_app p r : startswith p (p +:+ r) = true.
Proof.
  induction p as [|a p IH]; [reflexivity|].
  rewrite app_cons. simpl. now rewrite Ascii.eqb_refl.
Qed.

(** No occurrence of the tag starts inside a text without colon that is
    followed by a semicolon. *)
Lemma no_tag_inside s t :
  contains ":" s = false ->
  startswith "WIFI:" (s +:+ String ";" t) = false.
Proof.
  intros H.
  destruct (startswith "WIFI:" (s +:+ String ";" t)) eqn:E; [exfalso|reflexivity].
  apply startswith_inv in E as [r E].
  do 5 (destruct s as [|? s];
        [rewrite ?app_cons, ?app_empty in E; discriminate E|];
        rewrite ?app_cons in E; injection E as -> E).
  discriminate H.
Qed.

Lemma replace_keeps_field s t :
  contains ":" s = false ->
  replace_from "WIFI:" EmptyString 0 (s +:+ String ";" t)
  = s +:+ replace_from "WIFI:" EmptyString 0 (String ";" t).
Proof.
  induction s as [|a s IH]; intros H.
  - reflexivity.
  - pose proof (no_tag_inside _ t H) as Hno.
    apply contains_false_cons in H as [_ Hs].
    rewrite app_cons in *.
    cbn [replace_from]. rewrite Hno, (IH Hs). reflexivity.
Qed.

Example split_examples :
  split ";" "a;;b" = ["a"; EmptyString; "b"] /\
  split ";" EmptyString = [EmptyString] /\
  split1 ":" "S:a:b" = ["S"; "a:b"] /\
  split1 ":" "junk" = ["junk"].
Proof. repeat split. Qed.

Example replace_examples :
  replace "WIFI:" EmptyString "WIFI:S:x" = "S:x" /\
  replace "WIFI:" EmptyString "WIFIWIFI::" = "WIFI:" /\
  replace "WIFI:" EmptyString "S:WIFI" = "S:WIFI".
Proof. repeat split. Qed.

Example strip_lower_examples :
  strip "  a b  " = "a b" /\
  strip "   " = EmptyString /\
  lower "DarkGreen" = "darkgreen".
Proof. repeat split. Qed.

End PyStrFacts.

(** ** The WiFi codec: what [parse_wifi_qr] reads back *)

Module WifiCodec.
Import PyStr PyStrFacts.

(** Removing the tag from a payload built by [wifi_string]: only the
    leading occurrence is there to remove. *)
Lemma replace_wifi_string ssid password security hidden :
  contains ":" security = false ->
  contains ":" ssid = false ->
  contains ":" password = false ->
  replace "WIFI:" EmptyString (wifi_string ssid password security hidden)
  = ("T:" +:+ security) +:+ String ";"
      (("S:" +:+ ssid) +:+ String ";"
         (("P:" +:+ password) +:+ String ";"
            (("H:" +:+ hidden_flag hidden) +:+ String ";"
               (EmptyString +:+ String ";" EmptyString)))).
Proof.
  intros Hsec Hssid Hpw.
  unfold replace, wifi_string.
  rewrite !app_cons, !app_empty. simpl.
  rewrite (replace_keeps_field security) by assumption. simpl.
  rewrite (replace_keeps_field ssid) by assumption. simpl.
  rewrite (replace_keeps_field password) by assumption.
  destruct hidden; reflexivity.
Qed.

(** A segment [k:v] stores [v] under the one-character key [k]. *)
Lemma wifi_info_step_field (k : ascii) (v : string) (m : gmap string string) :
  Ascii.eqb k ":" = false ->
  wifi_info_step m (String k (String ":" v)) = Some (<[String k EmptyString := v]> m).
Proof.
  intros Hk. unfold wifi_info_step.
  cbn [contains split1]. rewrite Hk, Ascii.eqb_refl. reflexivity.
Qed.

(** The dictionary read back from a payload built by [wifi_string]. *)
Lemma wifi_roundtrip_fields ssid password security hidden :
  contains ";" security = false -> contains ":" security = false ->
  contains ";" ssid = false -> contains ":" ssid = false ->
  contains ";" password = false -> contains ":" password = false ->
  wifi_info_of (wifi_string ssid password security hidden)
  = Some (<["S" := ssid]> (<["P" := password]> (<["T" := security]>
            (<["H" := hidden_flag hidden]> ∅)))).
Proof.
  intros Hsec1 Hsec2 Hssid1 Hssid2 Hpw1 Hpw2.
  unfold wifi_info_of, wifi_parts.
  rewrite replace_wifi_string by assumption.
  rewrite !split_field
    by (rewrite ?app_cons, ?app_empty; simpl; first [assumption | now destruct hidden]).
  rewrite !app_cons, !app_empty.
  cbn [wifi_info_loop].
  rewrite !wifi_info_step_field by reflexivity.
  cbn [split wifi_info_loop wifi_info_step contains].
  reflexivity.
Qed.

End WifiCodec.

Example wifi_string_example :
  wifi_string "mynetwork" "mypass" "WPA" false
  = "WIFI:T:WPA;S:mynetwork;P:mypass;H:false;;".
Proof. reflexivity. Qed.

Example wifi_parts_example :
  wifi_parts "WIFI:T:WPA;S:mynetwork;P:mypass;H:false;;"
  = ["T:WPA"; "S:mynetwork"; "P:mypass"; "H:false"; EmptyString; EmptyString].
Proof. reflexivity. Qed.

Example wifi_info_example :
  wifi_info_of "WIFI:T:WPA;S:a:b;junk;P:x"
  = Some (<["P" := "x"]> (<["S" := "a:b"]> (<["T" := "WPA"]> ∅))).
Proof. reflexivity. Qed.


(** ** Claims on the WiFi codec, the validation and the colours *)

Import PyStr PyStrFacts.

(** C1. Round trip: for an ssid and a password without semicolon and colon,
    a security among WPA, WEP and nopass, and either value of hidden,
    reading back the payload built by [generate_wifi_qr] gives the
    dictionary with exactly S, P, T and H bound to the ssid, the password,
    the security and the text true for a hidden network, false
    otherwise. *)
Theorem wifi_roundtrip (ssid password security : string) (hidden : bool) :
  contains ";" ssid = false -> contains ":" ssid = false ->
  contains ";" password = false -> contains ":" password = false ->
  security = "WPA" \/ security = "WEP" \/ security = "nopass" ->
  wifi_info_of (wifi_string ssid password security hidden)
  = Some (<["S" := ssid]> (<["P" := password]> (<["T" := security]>
            (<["H" := if hidden then "true" else "false"]> ∅)))).
Proof.
  intros Hs1 Hs2 Hp1 Hp2 Hsec.
  assert (hidden_flag hidden = if hidden then "true" else "false") as <-
      by (destruct hidden; reflexivity).
  apply WifiCodec.wifi_roundtrip_fields; try assumption;
    destruct Hsec as [-> | [-> | ->]]; reflexivity.
Qed.

Lemma wifi_roundtrip_witness :
  wifi_info_of (wifi_string "HomeNet" "secret123" "WPA" false)
  = Some (<["S" := "HomeNet"]> (<["P" := "secret123"]> (<["T" := "WPA"]>
            (<["H" := "false"]> ∅)))) /\
  wifi_info_of (wifi_string "Attic 5G" "pass word" "nopass" true)
  = Some (<["S" := "Attic 5G"]> (<["P" := "pass word"]> (<["T" := "nopass"]>
            (<["H" := "true"]> ∅)))) /\
  wifi_info_of (wifi_string "Shop" "k3y" "WEP" true)
  = Some (<["S" := "Shop"]> (<["P" := "k3y"]> (<["T" := "WEP"]>
            (<["H" := "true"]> ∅)))).
Proof.
  split; [|split].
  - apply (wifi_roundtrip "HomeNet" "secret123" "WPA" false);
      [reflexivity | reflexivity | reflexivity | reflexivity | left; reflexivity].
  - apply (wifi_roundtrip "Attic 5G" "pass word" "nopass" true);
      [reflexivity | reflexivity | reflexivity | reflexivity
      | right; right; reflexivity].
  - apply (wifi_roundtrip "Shop" "k3y" "WEP" true);
      [reflexivity | reflexivity | reflexivity | reflexivity
      | right; left; reflexivity].
Defined.

(** The parts of the decoder that hold for every payload: a segment
    without colon leaves the dictionary as it is, a segment with a colon is
    cut at its first colon, and the tuple assignment never raises. *)
Lemma wifi_info_step_no_colon (m : gmap string string) (part : string) :
  contains ":" part = false -> wifi_info_step m part = Some m.
Proof. intros H. unfold wifi_info_step. now rewrite H. Qed.

Lemma split1_first_colon (part : string) :
  contains ":" part = true ->
  exists key value,
    split1 ":" part = [key; value] /\
    part = key +:+ String ":" value /\
    contains ":" key = false.
Proof.
  induction part as [|a part IH]; [discriminate|].
  cbn [contains split1]. destruct (Ascii.eqb_spec a ":") as [->|Hne]; intros H.
  - exists EmptyString, part. repeat split.
  - simpl in H. destruct (IH H) as (key & value & -> & -> & Hk).
    exists (String a key), value. repeat split.
    cbn [contains]. rewrite Hk.
    destruct (Ascii.eqb_spec a ":"); [contradiction|reflexivity].
Qed.

Lemma wifi_info_step_colon (m : gmap string string) (part : string) :
  contains ":" part = true ->
  exists key value,
    part = key +:+ String ":" value /\ contains ":" key = false /\
    wifi_info_step m part = Some (<[key := value]> m).
Proof.
  intros H. destruct (split1_first_colon part H) as (key & value & Hs & Hp & Hk).
  exists key, value. repeat split; try assumption.
  unfold wifi_info_step. now rewrite H, Hs.
Qed.

Lemma wifi_info_loop_total (parts : list string) (m : gmap string string) :
  exists d, wifi_info_loop parts m = Some d.
Proof.
  revert m. induction parts as [|part parts IH]; intros m; [now exists m|].
  cbn [wifi_info_loop].
  destruct (contains ":" part) eqn:E.
  - destruct (wifi_info_step_colon m part E) as (k & v & _ & _ & ->). apply IH.
  - rewrite (wifi_info_step_no_colon m part E). apply IH.
Qed.

(** C2. On the payload of a network named MY-WIFI:2.4G the source removes
    the tag inside the name as well: [replace] is not limited to the
    leading occurrence, so S is read back as MY-2.4G, where a decoder
    that strips the leading tag only reads MY-WIFI:2.4G. *)
Theorem parse_wifi_qr_removes_inner_tag :
  wifi_info_of "WIFI:T:WPA;S:MY-WIFI:2.4G;P:pw;H:false;;"
  = Some (<["S" := "MY-2.4G"]> (<["P" := "pw"]> (<["T" := "WPA"]>
            (<["H" := "false"]> ∅)))) /\
  decode_leading_only "WIFI:T:WPA;S:MY-WIFI:2.4G;P:pw;H:false;;"
  = Some (<["S" := "MY-WIFI:2.4G"]> (<["P" := "pw"]> (<["T" := "WPA"]>
            (<["H" := "false"]> ∅)))).
Proof. split; reflexivity. Qed.

Lemma strip_empty_of_empty (text : string) :
  strip text <> EmptyString -> is_empty text = false /\ is_empty (strip text) = false.
Proof.
  intros H. split.
  - destruct text; [now elim H | reflexivity].
  - destruct (strip text); [now elim H | reflexivity].
Qed.

Lemma strip_all_space (text : string) :
  all_space text = true -> strip text = EmptyString.
Proof.
  unfold strip. induction text as [|a text IH]; [reflexivity|].
  cbn [all_space lstrip]. intros H. apply andb_true_iff in H as [-> H].
  exact (IH H).
Qed.

(** C8. [validate_input] rejects the empty text, a text of three spaces
    (and any text of whitespace only) and every text longer than 2953
    characters; it accepts hello, and every text of at most 2953
    characters that is not empty once stripped. *)
Theorem validate_input_spec :
  validate_input EmptyString = (false, "Input text cannot be empty") /\
  validate_input "   " = (false, "Input text cannot be empty") /\
  (forall text, all_space text = true ->
                validate_input text = (false, "Input text cannot be empty")) /\
  (forall text, 2953 < len text -> fst (validate_input text) = false) /\
  validate_input "hello" = (true, "Valid") /\
  (forall text, strip text <> EmptyString -> len text <= 2953 ->
                validate_input text = (true, "Valid")).
Proof.
  repeat split.
  - intros text Hsp. unfold validate_input.
    rewrite (strip_all_space text Hsp). cbn [is_empty]. now rewrite orb_true_r.
  - intros text Hlen. unfold validate_input.
    destruct (is_empty text || is_empty (strip text)); [reflexivity|].
    apply Nat.ltb_lt in Hlen. now rewrite Hlen.
  - intros text Hne Hlen. unfold validate_input.
    destruct (strip_empty_of_empty text Hne) as [-> ->].
    apply Nat.ltb_ge in Hlen. now rewrite Hlen.
Qed.

Lemma validate_input_spec_witness :
  validate_input (String "009" (String "010" " "))
  = (false, "Input text cannot be empty") /\
  fst (validate_input long_text) = false /\
  validate_input "QR code" = (true, "Valid").
Proof.
  split; [|split].
  - apply (proj1 (proj2 (proj2 validate_input_spec))). reflexivity.
  - apply (proj1 (proj2 (proj2 (proj2 validate_input_spec))) long_text).
    vm_compute. apply le_n.
  - apply (proj2 (proj2 (proj2 (proj2 (proj2 validate_input_spec)))) "QR code").
    + discriminate.
    + apply Nat.leb_le. reflexivity.
Defined.

(** The converse: an accepted text is short enough and not blank. *)
Lemma validate_input_accepts (text : string) :
  fst (validate_input text) = true ->
  strip text <> EmptyString /\ len text <= 2953.
Proof.
  unfold validate_input.
  destruct (is_empty text) eqn:E1; [discriminate|].
  destruct (is_empty (strip text)) eqn:E2; [discriminate|]. simpl.
  destruct (2953 <? len text) eqn:E3; [discriminate|]. intros _. split.
  - intros Hs. now rewrite Hs in E2.
  - now apply Nat.ltb_ge.
Qed.

Example color_table_names : color_table.*1 = get_available_colors.
Proof. reflexivity. Qed.





(** ** The custom raster path *)

Module Render.

Lemma module_at_square n modules row col :
  square n modules -> row < n -> col < n ->
  exists b, module_at modules row col = Ok b.
Proof.
  intros [Hlen Hrows] Hrow Hcol. unfold module_at.
  destruct (lookup_lt_is_Some_2 modules row) as [cells Hcells]; [lia|].
  rewrite Hcells.
  assert (length cells = n) as Hc.
  { rewrite Forall_forall in Hrows. apply Hrows.
    eapply list_elem_of_lookup_2, Hcells. }
  destruct (lookup_lt_is_Some_2 cells col) as [b Hb]; [lia|].
  rewrite Hb. now exists b.
Qed.

Lemma paints_refl fill img : paints (fun _ _ => false) fill img img.
Proof. repeat split. Qed.

Lemma draw_module_paints modules fill row col img :
  (exists b, module_at modules row col = Ok b) ->
  exists img',
    draw_module modules fill row col img = Ok img' /\
    paints (fun x y => dark modules row col && covers row col x y) fill img img'.
Proof.
  intros [b Hb]. unfold draw_module, dark. rewrite Hb. destruct b.
  - eexists. split; [reflexivity|]. repeat split.
  - exists img. split; [reflexivity|]. repeat split.
Qed.

(** A loop whose every round paints with the same colour paints the union
    of the rounds. *)
Lemma for_each_paints (hit : nat -> nat -> nat -> bool) fill body xs :
  (forall i, i ∈ xs -> forall img,
      exists img', body i img = Ok img' /\ paints (hit i) fill img img') ->
  forall img,
  exists img',
    for_each xs body img = Ok img' /\
    paints (fun x y => existsb (fun i => hit i x y) xs) fill img img'.
Proof.
  induction xs as [|i xs IH]; intros Hbody img.
  - exists img. split; [reflexivity|apply paints_refl].
  - destruct (Hbody i (list_elem_of_here _ _) img) as (img1 & E1 & W1 & H1 & P1).
    destruct (IH (fun j Hj => Hbody j (list_elem_of_further _ _ _ Hj)) img1)
      as (img2 & E2 & W2 & H2 & P2).
    exists img2. cbn [for_each]. rewrite E1. split; [exact E2|].
    repeat split; [congruence | congruence |].
    intros x y. rewrite P2, P1. cbn [existsb].
    destruct (hit i x y), (existsb (fun j => hit j x y) xs); reflexivity.
Qed.

Lemma draw_modules_paints n modules fill img :
  square n modules ->
  exists img',
    draw_modules modules n fill img = Ok img' /\
    paints (painted modules n) fill img img'.
Proof.
  intros Hsq. unfold draw_modules, painted.
  apply (for_each_paints
           (fun row x y =>
              existsb (fun col => dark modules row col && covers row col x y)
                      (seq 0 n))).
  intros row Hrow img0.
  apply (for_each_paints (fun col x y => dark modules row col && covers row col x y)).
  intros col Hcol img1. apply draw_module_paints.
  apply elem_of_seq in Hrow, Hcol.
  apply (module_at_square n); [assumption | lia | lia].
Qed.

(** The image built by the custom path, pixel by pixel. *)
Lemma render_colored_pixels n qr_code fg_color bg_color :
  square n (code qr_code) ->
  exists img,
    render_colored qr_code fg_color bg_color = Ok img /\
    img_width img = n * scale /\ img_height img = n * scale /\
    forall x y,
      img_pixel img x y
      = if painted (code qr_code) n x y
        then fg_rgb_of fg_color else bg_rgb_of bg_color.
Proof.
  intros Hsq. unfold render_colored.
  destruct Hsq as [Hlen Hrows]. rewrite Hlen.
  destruct (draw_modules_paints n (code qr_code) (fg_rgb_of fg_color)
              (PIL.Image_new (n * scale) (n * scale) (bg_rgb_of bg_color))
              (conj Hlen Hrows))
    as (img & E & W & H & P).
  exists img. repeat split; assumption.
Qed.

Lemma existsb_seq_true (f : nat -> bool) n i :
  i < n -> f i = true -> existsb f (seq 0 n) = true.
Proof.
  intros Hi Hf. apply existsb_exists. exists i. split; [|exact Hf].
  apply in_seq. lia.
Qed.

(** Every pixel of the block of a dark module is painted. *)
Lemma painted_block modules n row col dx dy :
  row < n -> col < n -> dark modules row col = true ->
  dx < scale -> dy < scale ->
  painted modules n (col * scale + dx) (row * scale + dy) = true.
Proof.
  intros Hrow Hcol Hdark Hdx Hdy. unfold painted.
  apply (existsb_seq_true _ n row Hrow).
  apply (existsb_seq_true _ n col Hcol).
  rewrite Hdark. cbn [andb]. unfold covers, scale in *.
  repeat (apply andb_true_iff; split); apply Nat.leb_le; lia.
Qed.

(** The corner pixel belongs to the box of module (0, 0) and to no other. *)
Lemma painted_corner modules n :
  0 < n -> painted modules n 0 0 = dark modules 0 0.
Proof.
  intros Hn. unfold painted.
  destruct (dark modules 0 0) eqn:E.
  - apply (existsb_seq_true _ n 0 Hn). apply (existsb_seq_true _ n 0 Hn).
    now rewrite E.
  - apply not_true_is_false. intros H.
    apply existsb_exists in H as (row & _ & H).
    apply existsb_exists in H as (col & _ & H).
    apply andb_true_iff in H as [Hd Hc]. unfold covers, scale in Hc.
    repeat (apply andb_true_iff in Hc as [Hc ?]).
    repeat match goal with
           | K : (_ <=? _) = true |- _ => apply Nat.leb_le in K
           end.
    assert (row = 0) as -> by lia. assert (col = 0) as -> by lia.
    congruence.
Qed.

Lemma first_dark_in_row_spec cells col :
  first_dark_in_row cells = Some col -> cells !! col = Some true.
Proof.
  unfold first_dark_in_row. intros H.
  destruct (list_find (fun b => b = true) cells) as [[i b]|] eqn:E; [|discriminate].
  simpl in H. injection H as ->.
  apply list_find_Some in E as (Hi & -> & _). exact Hi.
Qed.

Lemma first_dark_from_spec modules start row col :
  first_dark_from start modules = Some (row, col) ->
  start <= row /\
  exists cells, modules !! (row - start) = Some cells /\ cells !! col = Some true.
Proof.
  revert start. induction modules as [|cells rest IH]; intros start H; [discriminate|].
  cbn [first_dark_from] in H.
  destruct (first_dark_in_row cells) as [c|] eqn:E.
  - injection H as -> ->. split; [lia|]. exists cells.
    rewrite Nat.sub_diag. split; [reflexivity|now apply first_dark_in_row_spec].
  - destruct (IH _ H) as (Hle & cells' & Hr & Hc). split; [lia|].
    exists cells'. split; [|exact Hc].
    replace (row - start) with (S (row - S start)) by lia. exact Hr.
Qed.

(** The first dark module is a dark module of the matrix. *)
Lemma first_dark_is_dark n modules row col :
  square n modules ->
  first_dark modules = Some (row, col) ->
  row < n /\ col < n /\ dark modules row col = true.
Proof.
  intros [Hlen Hrows] H.
  apply first_dark_from_spec in H as (_ & cells & Hr & Hc).
  rewrite Nat.sub_0_r in Hr.
  assert (length cells = n) as Hcl.
  { rewrite Forall_forall in Hrows. apply Hrows.
    eapply list_elem_of_lookup_2, Hr. }
  apply lookup_lt_Some in Hr as Hrow. apply lookup_lt_Some in Hc as Hcol.
  repeat split; [lia | lia |].
  unfold dark, module_at. now rewrite Hr, Hc.
Qed.

End Render.

Lemma sample_qr_square : square 21 (code sample_qr).
Proof. split; [reflexivity|]. repeat constructor. Qed.

(** C3, as stated, fails on a QR symbol: the image has no quiet zone, so
    its corner pixel belongs to module (0, 0), which the finder pattern
    makes dark.  On the sample symbol the pixel at (0, 0) is blue, not
    yellow. *)
Lemma corner_pixel_of_symbol_is_blue :
  pixel_of (render_colored sample_qr "blue" "yellow") 0 0 = Some (0, 0, 255)%Z /\
  pixel_of (render_colored sample_qr "blue" "yellow") 0 0 <> Some (255, 255, 0)%Z.
Proof. split; [reflexivity | discriminate]. Qed.

(** C3, amended. A matrix of 21 by 21 modules rendered by the custom path
    with blue on yellow gives an image of 210 by 210 pixels whose corner
    pixel (0, 0) has the colour of module (0, 0): blue (0, 0, 255) when
    that module is dark, as in a QR symbol, and yellow (255, 255, 0) when
    it is light; every pixel of the 10 by 10 block of the first dark
    module is blue. *)
Theorem colored_render_blue_on_yellow (qr_code : qrcode) :
  square 21 (code qr_code) ->
  exists img,
    render_colored qr_code "blue" "yellow" = Ok img /\
    img_width img = 210 /\ img_height img = 210 /\
    PIL.getpixel img 0 0
    = Some (if dark (code qr_code) 0 0 then (0, 0, 255)%Z else (255, 255, 0)%Z) /\
    forall row col,
      first_dark (code qr_code) = Some (row, col) ->
      forall dx dy, dx < 10 -> dy < 10 ->
        PIL.getpixel img (col * 10 + dx) (row * 10 + dy) = Some (0, 0, 255)%Z.
Proof.
  intros Hsq.
  destruct (Render.render_colored_pixels 21 qr_code "blue" "yellow" Hsq)
    as (img & E & W & H & P).
  exists img. split; [exact E|]. split; [exact W|]. split; [exact H|].
  unfold PIL.getpixel. rewrite W, H. split.
  - cbn [Nat.ltb Nat.leb andb scale Nat.mul Nat.add].
    rewrite P, Render.painted_corner by lia. reflexivity.
  - intros row col Hfirst dx dy Hdx Hdy.
    destruct (Render.first_dark_is_dark 21 _ row col Hsq Hfirst) as (Hrow & Hcol & Hd).
    assert ((col * 10 + dx <? 21 * scale) && (row * 10 + dy <? 21 * scale) = true)
      as -> by (unfold scale; apply andb_true_iff; split; apply Nat.ltb_lt; lia).
    pose proof (Render.painted_block _ 21 row col dx dy Hrow Hcol Hd Hdx Hdy) as Hp.
    unfold scale in Hp. rewrite P, Hp. reflexivity.
Qed.

Lemma colored_render_blue_on_yellow_witness :
  exists img,
    render_colored sample_qr "blue" "yellow" = Ok img /\
    img_width img = 210 /\ img_height img = 210 /\
    PIL.getpixel img 0 0
    = Some (if dark (code sample_qr) 0 0 then (0, 0, 255)%Z else (255, 255, 0)%Z) /\
    forall row col,
      first_dark (code sample_qr) = Some (row, col) ->
      forall dx dy, dx < 10 -> dy < 10 ->
        PIL.getpixel img (col * 10 + dx) (row * 10 + dy) = Some (0, 0, 255)%Z.
Proof.
  apply (colored_render_blue_on_yellow sample_qr).
  split; [reflexivity|]. repeat constructor.
Defined.

Example sample_first_dark : first_dark (code sample_qr) = Some (0, 0).
Proof. reflexivity. Qed.

(** The box of line 129 includes its far corner, so it is one pixel wider
    and higher than the block: on the sample, the light module (0, 7) has
    its first pixel column painted by the dark module (0, 6) and keeps the
    background from its second column on. *)
Example rectangle_reaches_next_module :
  dark (code sample_qr) 0 6 = true /\
  dark (code sample_qr) 0 7 = false /\
  pixel_of (render_colored sample_qr "blue" "yellow") 70 0 = Some (0, 0, 255)%Z /\
  pixel_of (render_colored sample_qr "blue" "yellow") 71 0 = Some (255, 255, 0)%Z.
Proof. repeat split. Qed.

(** The other branch of the corner rule, on a grid whose first module is
    light: the corner is yellow and the block of module (0, 1) is blue. *)
Example light_corner_pixels :
  first_dark (code light_corner_qr) = Some (0, 1) /\
  pixel_of (render_colored light_corner_qr "blue" "yellow") 0 0 = Some (255, 255, 0)%Z /\
  pixel_of (render_colored light_corner_qr "blue" "yellow") 10 0 = Some (0, 0, 255)%Z /\
  pixel_of (render_colored light_corner_qr "blue" "yellow") 19 9 = Some (0, 0, 255)%Z.
Proof. repeat split. Qed.

(** ** Generation: the PNG writers and the orchestrator *)

(** Run the monad's operations on the traces at hand. *)
Ltac run_steps :=
  cbn [bind try_except call print ret lift trace_of outcome fst snd app negb].

(** Split on the innermost undecided oracle answer or test. *)
Ltac split_answer :=
  match goal with
  | |- context [match ?x with _ => _ end] =>
      lazymatch x with
      | context [match _ with _ => _ end] => fail
      | _ => destruct x eqn:?
      end
  end.

Ltac explore :=
  unfold print, ret, lift, call, bind, try_except, trace_of, outcome;
  cbn beta iota; cbn [fst snd app];
  repeat (split_answer; cbn beta iota; cbn [fst snd app]).

Lemma generate_colored_qr_saved w qr_code output_path fg_color bg_color img :
  render_colored qr_code fg_color bg_color = Ok img ->
  img_save w img output_path = Ok tt ->
  generate_colored_qr w qr_code output_path fg_color bg_color
  = ([Did (CImgSave img output_path)], Ok tt).
Proof.
  intros Hr Hs. unfold generate_colored_qr, colored_try.
  rewrite Hr. run_steps. rewrite Hs. reflexivity.
Qed.

Lemma generate_colored_qr_fallback w qr_code output_path fg_color bg_color t e :
  colored_try w qr_code output_path fg_color bg_color = (t, Raise e) ->
  generate_colored_qr w qr_code output_path fg_color bg_color
  = (t ++ Printed (LErrColored e) :: trace_of (builtin_png w qr_code output_path),
     outcome (builtin_png w qr_code output_path)).
Proof.
  intros H. unfold generate_colored_qr. rewrite H. run_steps.
  destruct (builtin_png w qr_code output_path) as [t' r]. reflexivity.
Qed.

(** C5. With the colours black and white the PNG is written by the writer
    of the encoding library at scale 10 and by nothing else; with any other
    pair the custom renderer runs; when the custom renderer raises, its
    exception is printed, the library writer is run on the same path at
    scale 10, and the outcome is the outcome of that writer, so that the
    renderer's own exception does not propagate. *)
Theorem write_png_dispatch (w : world) (qr_code : qrcode)
    (png_path fg_color bg_color : string) :
  (fg_color = "black" -> bg_color = "white" ->
   write_png w qr_code png_path fg_color bg_color
   = call (CPng qr_code png_path 10) (qr_png w qr_code png_path 10)) /\
  (~ (fg_color = "black" /\ bg_color = "white") ->
   write_png w qr_code png_path fg_color bg_color
   = generate_colored_qr w qr_code png_path fg_color bg_color) /\
  (forall img,
      render_colored qr_code fg_color bg_color = Ok img ->
      img_save w img png_path = Ok tt ->
      generate_colored_qr w qr_code png_path fg_color bg_color
      = ([Did (CImgSave img png_path)], Ok tt)) /\
  (forall t e,
      colored_try w qr_code png_path fg_color bg_color = (t, Raise e) ->
      generate_colored_qr w qr_code png_path fg_color bg_color
      = (t ++ Printed (LErrColored e)
           :: trace_of (call (CPng qr_code png_path 10) (qr_png w qr_code png_path 10)),
         qr_png w qr_code png_path 10)).
Proof.
  repeat split.
  - intros -> ->. reflexivity.
  - intros Hne. unfold write_png.
    destruct (String.eqb_spec fg_color "black") as [->|]; [|reflexivity].
    destruct (String.eqb_spec bg_color "white") as [->|]; [|reflexivity].
    now elim Hne.
  - apply generate_colored_qr_saved.
  - intros t e H. rewrite (generate_colored_qr_fallback _ _ _ _ _ _ _ H).
    unfold builtin_png. destruct (qr_png w qr_code png_path 10); reflexivity.
Qed.

Lemma write_png_dispatch_witness :
  write_png calm_world sample_qr "qrcodes/a.png" "black" "white"
  = ([Did (CPng sample_qr "qrcodes/a.png" 10)], Ok tt) /\
  write_png save_denied_world sample_qr "qrcodes/a.png" "red" "white"
  = generate_colored_qr save_denied_world sample_qr "qrcodes/a.png" "red" "white" /\
  (exists img,
      generate_colored_qr save_denied_world sample_qr "qrcodes/a.png" "red" "white"
      = ([Failed (CImgSave img "qrcodes/a.png") (LibraryError "Permission denied");
          Printed (LErrColored (LibraryError "Permission denied"));
          Did (CPng sample_qr "qrcodes/a.png" 10)], Ok tt)).
Proof.
  split; [|split].
  - apply (proj1 (write_png_dispatch calm_world sample_qr
                    "qrcodes/a.png" "black" "white")); reflexivity.
  - apply (proj1 (proj2 (write_png_dispatch save_denied_world sample_qr
                           "qrcodes/a.png" "red" "white"))).
    intros [H _]. discriminate H.
  - eexists.
    apply (proj2 (proj2 (proj2 (write_png_dispatch save_denied_world sample_qr
                                  "qrcodes/a.png" "red" "white")))
             [Failed (CImgSave _ "qrcodes/a.png") (LibraryError "Permission denied")]
             (LibraryError "Permission denied")).
    reflexivity.
Defined.

(** The handler of [generate_qr] turns every exception into the value
    [False]: the call itself never raises. *)
Lemma generate_qr_returns w raw_text file_name output_format fg_color bg_color :
  exists b,
    outcome (generate_qr w raw_text file_name output_format fg_color bg_color) = Ok b.
Proof.
  unfold generate_qr.
  destruct (generate_qr_try w raw_text file_name output_format fg_color bg_color)
    as [t [[]|e]]; run_steps; eauto.
Qed.

(** C6, as stated, fails when the custom renderer is in use: an exception
    raised by [img.save], which is file I/O, is caught inside
    [generate_colored_qr]; the library writer then writes the file and the
    call returns [True]. *)
Lemma generate_qr_succeeds_after_save_error :
  outcome (generate_qr save_denied_world "test" "out" "png" "blue" "white") = Ok true /\
  raised_in (trace_of (generate_qr save_denied_world "test" "out" "png" "blue" "white"))
  = [LibraryError "Permission denied"] /\
  artifacts_in (trace_of (generate_qr save_denied_world "test" "out" "png" "blue" "white"))
  = [BuiltinPng "qrcodes/out.png" 10].
Proof. repeat split. Qed.

(** C6, amended. For every input and every environment the call returns a
    Boolean and never raises.  It returns [False] exactly when a call to
    the encoder, to the terminal or SVG rendering, to the SVG file write or
    to the library PNG writer (used directly or as the fallback) has
    failed; the failure of [img.save] in the custom renderer alone does not
    make the call fail.  No operation is attempted twice. *)
Theorem generate_qr_outcome (w : world)
    (raw_text file_name output_format fg_color bg_color : string) :
  outcome (generate_qr w raw_text file_name output_format fg_color bg_color)
  = Ok (negb (existsb escaping_failure
                (trace_of (generate_qr w raw_text file_name output_format
                             fg_color bg_color)))) /\
  NoDup (operation_of <$>
           calls_in (trace_of (generate_qr w raw_text file_name output_format
                                 fg_color bg_color))).
Proof.
  unfold generate_qr, generate_qr_try, write_svg, write_png,
    generate_colored_qr, colored_try, builtin_png.
  explore;
    (split; [reflexivity | apply (bool_decide_unpack _); vm_compute; exact I]).
Qed.

(** For the format both, a failure of the SVG step ends the call before
    the PNG is attempted, and the call returns [False]. *)
Lemma generate_qr_both_svg_failure w raw_text file_name fg_color bg_color qr_code art e :
  pyqrcode_create w raw_text = Ok qr_code ->
  qr_terminal w qr_code = Ok art ->
  qr_svg w qr_code 10 = Raise e ->
  generate_qr w raw_text file_name "both" fg_color bg_color
  = ([Did (CCreate raw_text); Did (CTerminal qr_code); Printed (LTerminal art);
      Failed (CSvg qr_code 10) e; Printed (LErrGenerating e)], Ok false).
Proof.
  intros Hc Ht Hs. unfold generate_qr, generate_qr_try, write_svg.
  rewrite Hc. run_steps. rewrite Ht. run_steps.
  change (String.eqb (PyStr.lower "both") "svg") with false.
  change (String.eqb (PyStr.lower "both") "png") with false.
  change (String.eqb (PyStr.lower "both") "both") with true.
  cbn iota. rewrite Hs. reflexivity.
Qed.

Example generate_qr_both_calm :
  generate_qr calm_world "test" "t" "both" "black" "white"
  = ([Did (CCreate "test"); Did (CTerminal (QRCode "test" (code sample_qr)));
      Printed (LTerminal "(terminal art)");
      Failed (CSvg (QRCode "test" (code sample_qr)) 10)
        (LibraryError "TypeError: svg is missing the argument file");
      Printed (LErrGenerating
                 (LibraryError "TypeError: svg is missing the argument file"))],
     Ok false).
Proof. reflexivity. Qed.

(** A format outside svg, png and both writes nothing and succeeds. *)
Example generate_qr_unknown_format :
  artifacts_in (trace_of (generate_qr calm_world "test" "t" "jpg" "black" "white")) = [] /\
  outcome (generate_qr calm_world "test" "t" "jpg" "black" "white") = Ok true.
Proof. split; reflexivity. Qed.

(** ** generate_wifi_qr *)

Lemma generate_wifi_qr_unfold w ssid password security hidden file_name :
  generate_wifi_qr w ssid password security hidden file_name
  = (print LWifiGenerating >>
     print (LWifiSsid ssid) >>
     print (LWifiSecurity security) >>
     print (LWifiHidden hidden) >>
     generate_qr w (wifi_string ssid password security hidden)
       (wifi_file_name w ssid file_name) "png" "black" "white").
Proof. reflexivity. Qed.



Example generate_wifi_qr_run :
  generate_wifi_qr calm_world "HomeNet" "secret123" "WPA" false "home"
  = ([Printed LWifiGenerating; Printed (LWifiSsid "HomeNet");
      Printed (LWifiSecurity "WPA"); Printed (LWifiHidden false);
      Did (CCreate "WIFI:T:WPA;S:HomeNet;P:secret123;H:false;;");
      Did (CTerminal (QRCode "WIFI:T:WPA;S:HomeNet;P:secret123;H:false;;"
                        (code sample_qr)));
      Printed (LTerminal "(terminal art)");
      Did (CPng (QRCode "WIFI:T:WPA;S:HomeNet;P:secret123;H:false;;"
                   (code sample_qr)) "qrcodes/home.png" 10);
      Printed (LPngSaved "qrcodes/home.png")], Ok true).
Proof. reflexivity. Qed.

Example generate_wifi_qr_default_name :
  wifi_file_name calm_world "HomeNet" EmptyString = "wifi_HomeNet_20240101_120000".
Proof. reflexivity. Qed.

(** ** Decoding: parse_wifi_qr, the classification and read_qr *)

(** The display of [parse_wifi_qr]: the tuple assignment never raises, so
    the five lines are always printed. *)
Lemma parse_wifi_qr_display (wifi_string : string) :
  exists d,
    wifi_info_of wifi_string = Some d /\
    parse_wifi_qr wifi_string
    = ([Printed LWifiDetected;
        Printed (LShowSsid (default "N/A" (d !! "S")));
        Printed (LShowPassword (default "N/A" (d !! "P")));
        Printed (LShowSecurity (default "N/A" (d !! "T")));
        Printed (LShowHidden (default "false" (d !! "H")))], Ok tt).
Proof.
  destruct (wifi_info_loop_total (wifi_parts wifi_string) ∅) as [d Hd].
  exists d. split; [exact Hd|].
  unfold parse_wifi_qr. unfold wifi_info_of. rewrite Hd. reflexivity.
Qed.

Lemma classify_ok (decoded_text : string) :
  outcome (classify decoded_text) = Ok tt.
Proof.
  unfold classify.
  destruct (startswith "WIFI:" decoded_text).
  - destruct (parse_wifi_qr_display decoded_text) as (d & _ & ->). reflexivity.
  - repeat (match goal with
            | |- context [if ?b then _ else _] => destruct b
            end; try reflexivity).
Qed.

(** The four prefixes exclude one another. *)
Lemma prefixes_disjoint (decoded_text : string) :
  Nat.b2n (startswith "WIFI:" decoded_text)
  + Nat.b2n (startswith "http" decoded_text)
  + Nat.b2n (startswith "tel:" decoded_text)
  + Nat.b2n (startswith "mailto:" decoded_text) <= 1.
Proof.
  destruct decoded_text as [|a s]; [cbn; lia|].
  rewrite !startswith_cons.
  destruct (Ascii.eqb_spec "W" a) as [<-|_];
    [|destruct (Ascii.eqb_spec "h" a) as [<-|_];
      [|destruct (Ascii.eqb_spec "t" a) as [<-|_];
        [|destruct (Ascii.eqb_spec "m" a) as [<-|_]]]];
    repeat match goal with
           | |- context [startswith ?p s] => destruct (startswith p s)
           end; cbn; lia.
Qed.

(** C4. The decoded text is classified by its prefix, the tests being made
    in the order WIFI:, http, tel:, mailto: and only the first that holds
    being acted on: a WiFi payload goes to [parse_wifi_qr], which prints
    the structured display of the decoded dictionary; otherwise http tags
    a URL (so httpfoo is a URL), otherwise tel: tags a phone number,
    otherwise mailto: tags an email, otherwise nothing is printed. *)
Theorem classify_by_prefix (decoded_text : string) :
  (startswith "WIFI:" decoded_text = true ->
   classify decoded_text = parse_wifi_qr decoded_text /\
   exists d,
     wifi_info_of decoded_text = Some d /\
     printed_in (trace_of (classify decoded_text))
     = [LWifiDetected;
        LShowSsid (default "N/A" (d !! "S"));
        LShowPassword (default "N/A" (d !! "P"));
        LShowSecurity (default "N/A" (d !! "T"));
        LShowHidden (default "false" (d !! "H"))]) /\
  (startswith "WIFI:" decoded_text = false ->
   startswith "http" decoded_text = true ->
   classify decoded_text = print LUrlDetected) /\
  (startswith "WIFI:" decoded_text = false ->
   startswith "http" decoded_text = false ->
   startswith "tel:" decoded_text = true ->
   classify decoded_text = print LPhoneDetected) /\
  (startswith "WIFI:" decoded_text = false ->
   startswith "http" decoded_text = false ->
   startswith "tel:" decoded_text = false ->
   startswith "mailto:" decoded_text = true ->
   classify decoded_text = print LEmailDetected) /\
  (startswith "WIFI:" decoded_text = false ->
   startswith "http" decoded_text = false ->
   startswith "tel:" decoded_text = false ->
   startswith "mailto:" decoded_text = false ->
   classify decoded_text = ret tt) /\
  classify "httpfoo" = print LUrlDetected.
Proof.
  unfold classify. repeat split.
  - now rewrite H.
  - rewrite H. destruct (parse_wifi_qr_display decoded_text) as (d & Hd & ->).
    exists d. split; [exact Hd | reflexivity].
  - intros -> ->. reflexivity.
  - intros -> -> ->. reflexivity.
  - intros -> -> -> ->. reflexivity.
  - intros -> -> -> ->. reflexivity.
Qed.

Lemma classify_by_prefix_witness :
  printed_in (trace_of (classify "WIFI:T:WPA;S:HomeNet;P:secret123;H:false;;"))
  = [LWifiDetected; LShowSsid "HomeNet"; LShowPassword "secret123";
     LShowSecurity "WPA"; LShowHidden "false"] /\
  classify "https://example.org" = print LUrlDetected /\
  classify "tel:+15550100" = print LPhoneDetected /\
  classify "mailto:someone@example.org" = print LEmailDetected /\
  classify "WIFI-http" = ret tt.
Proof.
  split; [|split; [|split; [|split]]].
  - destruct (proj1 (classify_by_prefix "WIFI:T:WPA;S:HomeNet;P:secret123;H:false;;")
                eq_refl) as (_ & d & Hd & ->).
    injection Hd as <-. reflexivity.
  - apply (proj1 (proj2 (classify_by_prefix "https://example.org"))); reflexivity.
  - apply (proj1 (proj2 (proj2 (classify_by_prefix "tel:+15550100")))); reflexivity.
  - apply (proj1 (proj2 (proj2 (proj2
             (classify_by_prefix "mailto:someone@example.org"))))); reflexivity.
  - apply (proj1 (proj2 (proj2 (proj2 (proj2
             (classify_by_prefix "WIFI-http")))))); reflexivity.
Defined.

(** The report of a successful scan: the three lines on the decoded
    content, then whatever the classification prints. *)
Lemma read_qr_report w file_name img first rest decoded_text :
  path_exists w file_name = true ->
  Image_open w file_name = Ok img ->
  pyzbar_decode w img = Ok (first :: rest) ->
  utf8_decode w (data first) = Ok decoded_text ->
  read_qr w file_name
  = ([Printed LScanning; Did (CImageOpen file_name); Did (CDecode img);
      Did (CUtf8 (data first)); Printed LDecodedOk;
      Printed (LContent decoded_text); Printed (LType (type first))]
       ++ trace_of (classify decoded_text), Ok true).
Proof.
  intros Hp Hi Hd Hu. unfold read_qr, read_qr_try.
  rewrite Hp, Hi. cbn [negb]. run_steps. rewrite Hd. run_steps. rewrite Hu.
  run_steps.
  pose proof (classify_ok decoded_text) as Hc.
  destruct (classify decoded_text) as [tc rc]. cbn [outcome snd] in Hc. subst rc.
  run_steps. now rewrite app_nil_r.
Qed.

(** C7. [read_qr] never raises: every run returns a Boolean.  When the
    path does not exist it prints the file-not-found line and returns
    [False]; when the decode library finds no code in the image it prints
    the no-code line and returns [False]; it returns [True] only when the
    path exists, the image was opened, at least one code was decoded and
    the report on the first one was printed. *)
Theorem read_qr_outcome (w : world) (file_name : string) :
  (exists b, outcome (read_qr w file_name) = Ok b) /\
  (path_exists w file_name = false ->
   read_qr w file_name = ([Printed (LFileNotFound file_name)], Ok false)) /\
  (forall img,
      path_exists w file_name = true ->
      Image_open w file_name = Ok img ->
      pyzbar_decode w img = Ok [] ->
      read_qr w file_name
      = ([Printed LScanning; Did (CImageOpen file_name); Did (CDecode img);
          Printed LNoQrFound], Ok false)) /\
  (outcome (read_qr w file_name) = Ok true ->
   path_exists w file_name = true /\
   exists img first rest decoded_text,
     Image_open w file_name = Ok img /\
     pyzbar_decode w img = Ok (first :: rest) /\
     utf8_decode w (data first) = Ok decoded_text /\
     printed_in (trace_of (read_qr w file_name))
     = [LScanning; LDecodedOk; LContent decoded_text; LType (type first)]
         ++ printed_in (trace_of (classify decoded_text))).
Proof.
  split; [|split; [|split]].
  - unfold read_qr.
    destruct (read_qr_try w file_name) as [t [b|e]]; run_steps; eauto.
  - intros Hp. unfold read_qr, read_qr_try. rewrite Hp. reflexivity.
  - intros img Hp Hi Hd. unfold read_qr, read_qr_try.
    rewrite Hp, Hi. run_steps. rewrite Hd. reflexivity.
  - destruct (path_exists w file_name) eqn:Hp.
    2: { unfold read_qr, read_qr_try. rewrite Hp. discriminate. }
    destruct (Image_open w file_name) as [img|e] eqn:Hi.
    2: { unfold read_qr, read_qr_try. rewrite Hp, Hi. discriminate. }
    destruct (pyzbar_decode w img) as [[|first rest]|e] eqn:Hd.
    1, 3: unfold read_qr, read_qr_try; rewrite Hp, Hi; run_steps;
          rewrite Hd; discriminate.
    destruct (utf8_decode w (data first)) as [decoded_text|e] eqn:Hu.
    2: { unfold read_qr, read_qr_try. rewrite Hp, Hi. run_steps.
         rewrite Hd. run_steps. rewrite Hu. discriminate. }
    intros _. split; [reflexivity|].
    exists img, first, rest, decoded_text.
    split; [reflexivity|]. split; [exact Hd|]. split; [exact Hu|].
    rewrite (read_qr_report w file_name img first rest decoded_text Hp Hi Hd Hu).
    reflexivity.
Qed.

Lemma read_qr_outcome_witness :
  read_qr calm_world "missing.png" = ([Printed (LFileNotFound "missing.png")], Ok false) /\
  outcome (read_qr blank_image_world "qrcodes/wifi.png") = Ok false /\
  printed_in (trace_of (read_qr blank_image_world "qrcodes/wifi.png"))
  = [LScanning; LNoQrFound] /\
  path_exists calm_world "qrcodes/wifi.png" = true.
Proof.
  split; [|split; [|split]].
  - apply (proj1 (proj2 (read_qr_outcome calm_world "missing.png"))). reflexivity.
  - rewrite (proj1 (proj2 (proj2 (read_qr_outcome blank_image_world "qrcodes/wifi.png")))
               (PIL.Image_new 1 1 (0, 0, 0)%Z) eq_refl eq_refl eq_refl).
    reflexivity.
  - rewrite (proj1 (proj2 (proj2 (read_qr_outcome blank_image_world "qrcodes/wifi.png")))
               (PIL.Image_new 1 1 (0, 0, 0)%Z) eq_refl eq_refl eq_refl).
    reflexivity.
  - apply (proj2 (proj2 (proj2 (read_qr_outcome calm_world "qrcodes/wifi.png")))).
    reflexivity.
Defined.

Example read_qr_wifi_run :
  read_qr calm_world "qrcodes/wifi.png"
  = ([Printed LScanning; Did (CImageOpen "qrcodes/wifi.png");
      Did (CDecode (PIL.Image_new 1 1 (0, 0, 0)%Z));
      Did (CUtf8 "WIFI:T:WPA;S:HomeNet;P:secret123;H:false;;");
      Printed LDecodedOk;
      Printed (LContent "WIFI:T:WPA;S:HomeNet;P:secret123;H:false;;");
      Printed (LType "QRCODE");
      Printed LWifiDetected; Printed (LShowSsid "HomeNet");
      Printed (LShowPassword "secret123"); Printed (LShowSecurity "WPA");
      Printed (LShowHidden "false")], Ok true).
Proof. reflexivity. Qed.

(** * Further properties of the code *)

(** ** The WiFi codec beyond the documented fields *)

Module CodecFacts.
Import PyStr PyStrFacts.

Lemma contains_app c s t :
  contains c (s +:+ t) = contains c s || contains c t.
Proof.
  induction s as [|a s IH]; [reflexivity|].
  rewrite app_cons. cbn [contains]. rewrite IH. apply orb_assoc.
Qed.


Lemma app_assoc_str s t u : (s +:+ t) +:+ u = s +:+ (t +:+ u).
Proof.
  induction s as [|a s IH]; [reflexivity|].
  rewrite !app_cons. now rewrite IH.
Qed.




End CodecFacts.



Module DecoderFacts.
Import PyStr PyStrFacts.

(** The fields cut by [split] hold no separator. *)
Lemma split_fields_clean sep s :
  Forall (fun part => contains sep part = false) (split sep s).
Proof.
  induction s as [|a s IH]; cbn [split].
  - repeat constructor.
  - destruct (Ascii.eqb a sep) eqn:E.
    + constructor; [reflexivity|exact IH].
    + destruct (split sep s) as [|w ws].
      * constructor; [|constructor]. cbn [contains]. now rewrite E.
      * inversion IH as [|? ? Hw Hws]; subst.
        constructor; [|exact Hws]. cbn [contains]. now rewrite E, Hw.
Qed.

(** A character of a field cut by [split] is a character of the text. *)
Lemma split_fields_within sep c s :
  contains c s = false ->
  Forall (fun part => contains c part = false) (split sep s).
Proof.
  induction s as [|a s IH]; cbn [split]; intros H.
  - repeat constructor.
  - apply contains_false_cons in H as [Ha Hs]. specialize (IH Hs).
    destruct (Ascii.eqb a sep).
    + constructor; [reflexivity|exact IH].
    + destruct (split sep s) as [|w ws].
      * constructor; [|constructor]. cbn [contains]. now rewrite Ha.
      * inversion IH as [|? ? Hw Hws]; subst.
        constructor; [|exact Hws]. cbn [contains]. now rewrite Ha, Hw.
Qed.

(** Removing text adds no character. *)
Lemma replace_removes_only old c skip s :
  contains c s = false ->
  contains c (replace_from old EmptyString skip s) = false.
Proof.
  revert skip. induction s as [|a s IH]; intros skip H; [reflexivity|].
  apply contains_false_cons in H as [Ha Hs].
  cbn [replace_from]. destruct skip as [|k]; [|now apply IH].
  destruct (startswith old (String a s)).
  - rewrite app_empty. now apply IH.
  - cbn [contains]. rewrite Ha. now apply IH.
Qed.

(** One round of the loop keeps the entries clean. *)
Lemma wifi_info_step_clean (m d : gmap string string) (part : string) :
  contains ";" part = false ->
  map_Forall clean_entry m ->
  wifi_info_step m part = Some d ->
  map_Forall clean_entry d.
Proof.
  intros Hpart Hm Hstep.
  destruct (contains ":" part) eqn:E.
  - destruct (wifi_info_step_colon m part E) as (key & value & -> & Hk & Hd).
    rewrite Hd in Hstep. injection Hstep as <-.
    rewrite CodecFacts.contains_app in Hpart.
    apply orb_false_elim in Hpart as [Hkey Hval].
    apply contains_false_cons in Hval as [_ Hval].
    apply map_Forall_insert_2; [|exact Hm]. repeat split; assumption.
  - rewrite (wifi_info_step_no_colon m part E) in Hstep. now injection Hstep as <-.
Qed.

Lemma wifi_info_loop_clean parts (m d : gmap string string) :
  Forall (fun part => contains ";" part = false) parts ->
  map_Forall clean_entry m ->
  wifi_info_loop parts m = Some d ->
  map_Forall clean_entry d.
Proof.
  revert m. induction parts as [|part parts IH]; intros m Hparts Hm Hloop.
  - now injection Hloop as <-.
  - inversion Hparts as [|? ? Hpart Hrest]; subst.
    cbn [wifi_info_loop] in Hloop.
    destruct (wifi_info_step m part) as [m'|] eqn:Hstep; [|discriminate].
    apply (IH m' Hrest); [|exact Hloop].
    exact (wifi_info_step_clean m m' part Hpart Hm Hstep).
Qed.

Lemma wifi_info_of_clean (payload : string) (d : gmap string string) :
  wifi_info_of payload = Some d -> map_Forall clean_entry d.
Proof.
  unfold wifi_info_of, wifi_parts.
  apply wifi_info_loop_clean; [apply split_fields_clean|apply map_Forall_empty].
Qed.

(** Segments without colon leave the dictionary as it is. *)
Lemma wifi_info_loop_no_colon parts (m : gmap string string) :
  Forall (fun part => contains ":" part = false) parts ->
  wifi_info_loop parts m = Some m.
Proof.
  induction 1 as [|part parts Hpart _ IH]; [reflexivity|].
  cbn [wifi_info_loop]. now rewrite (wifi_info_step_no_colon m part Hpart).
Qed.

Lemma wifi_info_loop_app parts1 parts2 (m : gmap string string) :
  wifi_info_loop (parts1 ++ parts2) m
  = match wifi_info_loop parts1 m with
    | Some m' => wifi_info_loop parts2 m'
    | None => None
    end.
Proof.
  revert m. induction parts1 as [|part parts1 IH]; intros m; [reflexivity|].
  cbn [app wifi_info_loop]. destruct (wifi_info_step m part); [apply IH|reflexivity].
Qed.

(** A segment that does not start with [key] and a colon stores nothing
    under [key]. *)
Lemma wifi_info_step_other_key (m d : gmap string string) key part :
  startswith (key +:+ ":") part = false ->
  wifi_info_step m part = Some d ->
  d !! key = m !! key.
Proof.
  intros Hstart Hstep.
  destruct (contains ":" part) eqn:E.
  - destruct (wifi_info_step_colon m part E) as (k & v & -> & Hk & Hd).
    rewrite Hd in Hstep. injection Hstep as <-.
    apply lookup_insert_ne. intros ->.
    change (String ":" v) with (":" +:+ v) in Hstart.
    rewrite <- CodecFacts.app_assoc_str in Hstart.
    now rewrite startswith_app in Hstart.
  - rewrite (wifi_info_step_no_colon m part E) in Hstep. now injection Hstep as <-.
Qed.

Lemma wifi_info_loop_other_key parts (m d : gmap string string) key :
  Forall (fun part => startswith (key +:+ ":") part = false) parts ->
  wifi_info_loop parts m = Some d ->
  d !! key = m !! key.
Proof.
  revert m. induction parts as [|part parts IH]; intros m Hparts Hloop.
  - now injection Hloop as <-.
  - inversion Hparts as [|? ? Hpart Hrest]; subst.
    cbn [wifi_info_loop] in Hloop.
    destruct (wifi_info_step m part) as [m'|] eqn:Hstep; [|discriminate].
    rewrite (IH m' Hrest Hloop).
    exact (wifi_info_step_other_key m m' key part Hpart Hstep).
Qed.

End DecoderFacts.

(** X2. Whatever the payload, [parse_wifi_qr] builds a dictionary (the
    tuple assignment never raises) in which no key holds a colon or a
    semicolon and no value holds a semicolon. *)
Theorem wifi_info_entries_clean (payload : string) :
  exists d,
    wifi_info_of payload = Some d /\
    forall key value,
      d !! key = Some value ->
      contains ":" key = false /\ contains ";" key = false /\
      contains ";" value = false.
Proof.
  destruct (wifi_info_loop_total (wifi_parts payload) ∅) as [d Hd].
  exists d. split; [exact Hd|].
  intros key value Hkv.
  exact (DecoderFacts.wifi_info_of_clean payload d Hd key value Hkv).
Qed.

(** X3. The payload is built without escaping, so a semicolon in the ssid
    or in the password breaks the round trip: the value read back under S
    (under P) is never the ssid (the password) that was encoded. *)
Theorem wifi_roundtrip_breaks_on_semicolon
    (ssid password security : string) (hidden : bool) (d : gmap string string) :
  wifi_info_of (wifi_string ssid password security hidden) = Some d ->
  (contains ";" ssid = true -> d !! "S" <> Some ssid) /\
  (contains ";" password = true -> d !! "P" <> Some password).
Proof.
  intros Hd. pose proof (DecoderFacts.wifi_info_of_clean _ d Hd) as Hclean.
  split; intros Hsemi Hlookup;
    destruct (Hclean _ _ Hlookup) as (_ & _ & Hv); congruence.
Qed.

Lemma wifi_roundtrip_breaks_on_semicolon_witness :
  <["S" := "Guest"]> (<["P" := "pw"]> (<["T" := "WPA"]>
     (<["H" := "false"]> (∅ : gmap string string)))) !! "S" <> Some "Guest;5G".
Proof.
  apply (proj1 (wifi_roundtrip_breaks_on_semicolon "Guest;5G" "pw" "WPA" false
                  _ eq_refl)).
  reflexivity.
Defined.

(** X4. When a key occurs in several segments the last one wins: after a
    segment key:value, segments that do not start with the key and a colon
    leave the value of the key as that segment set it. *)
Theorem wifi_info_last_segment_wins
    (before after : list string) (key value : string) (m d : gmap string string) :
  contains ":" key = false ->
  Forall (fun part => startswith (key +:+ ":") part = false) after ->
  wifi_info_loop (before ++ (key +:+ String ":" value) :: after) m = Some d ->
  d !! key = Some value.
Proof.
  intros Hkey Hafter Hloop.
  rewrite DecoderFacts.wifi_info_loop_app in Hloop.
  destruct (wifi_info_loop before m) as [m1|]; [|discriminate].
  cbn [wifi_info_loop] in Hloop.
  assert (wifi_info_step m1 (key +:+ String ":" value)
          = Some (<[key := value]> m1)) as Hstep.
  { assert (contains ":" (key +:+ String ":" value) = true) as Hc.
    { rewrite CodecFacts.contains_app. cbn [contains].
      rewrite Ascii.eqb_refl. now rewrite orb_true_r. }
    destruct (wifi_info_step_colon m1 _ Hc) as (k & v & Heq & Hk & ->).
    assert (k = key /\ v = value) as [-> ->]; [|reflexivity].
    clear -Heq Hk Hkey. revert k Heq Hk.
    induction key as [|a key IH]; intros [|b k] Heq Hk.
    - rewrite !app_empty in Heq. now injection Heq as <-.
    - rewrite app_empty, app_cons in Heq. injection Heq as <- _.
      apply contains_false_cons in Hk as [Hk _]. now rewrite Ascii.eqb_refl in Hk.
    - rewrite app_empty, app_cons in Heq. injection Heq as -> _.
      apply contains_false_cons in Hkey as [Hkey _].
      now rewrite Ascii.eqb_refl in Hkey.
    - rewrite !app_cons in Heq. injection Heq as <- Heq.
      apply contains_false_cons in Hkey as [_ Hkey].
      apply contains_false_cons in Hk as [_ Hk].
      destruct (IH Hkey k Heq Hk) as [-> ->]. split; reflexivity. }
  rewrite Hstep in Hloop.
  rewrite (DecoderFacts.wifi_info_loop_other_key after _ d key Hafter Hloop).
  apply lookup_insert_eq.
Qed.

Lemma wifi_info_last_segment_wins_witness :
  <["P" := "pw"]> (<["S" := "second"]> (∅ : gmap string string)) !! "S"
  = Some "second".
Proof.
  apply (wifi_info_last_segment_wins ["S:first"; "junk"] ["P:pw"; EmptyString]
           "S" "second" ∅).
  - reflexivity.
  - repeat constructor.
  - reflexivity.
Defined.

(** X5. [parse_wifi_qr] never reaches its handler: for every text it
    returns normally after printing exactly the five lines of the display
    and never the could-not-parse warning.  For a text without any colon
    every field is missing, and the display shows N/A for the SSID, the
    password and the security, and false for the hidden flag. *)
Theorem parse_wifi_qr_always_displays (wifi_string : string) :
  outcome (parse_wifi_qr wifi_string) = Ok tt /\
  length (printed_in (trace_of (parse_wifi_qr wifi_string))) = 5 /\
  (forall e, LErrParseWifi e ∉ printed_in (trace_of (parse_wifi_qr wifi_string))) /\
  (contains ":" wifi_string = false ->
   printed_in (trace_of (parse_wifi_qr wifi_string))
   = [LWifiDetected; LShowSsid "N/A"; LShowPassword "N/A";
      LShowSecurity "N/A"; LShowHidden "false"]).
Proof.
  destruct (parse_wifi_qr_display wifi_string) as (d & Hd & Hrun).
  rewrite Hrun. split; [reflexivity|]. split; [reflexivity|]. split.
  - intros e Hin. cbn in Hin.
    repeat (apply elem_of_cons in Hin as [Hin|Hin]; [discriminate Hin|]).
    now apply elem_of_nil in Hin.
  - intros Hcolon.
    assert (d = ∅) as ->; [|reflexivity].
    unfold wifi_info_of, wifi_parts in Hd.
    rewrite DecoderFacts.wifi_info_loop_no_colon in Hd; [now injection Hd as <-|].
    apply DecoderFacts.split_fields_within.
    now apply DecoderFacts.replace_removes_only.
Qed.

Lemma parse_wifi_qr_always_displays_witness :
  printed_in (trace_of (parse_wifi_qr "WIFI;no fields here"))
  = [LWifiDetected; LShowSsid "N/A"; LShowPassword "N/A";
     LShowSecurity "N/A"; LShowHidden "false"].
Proof.
  apply (proj2 (proj2 (proj2 (parse_wifi_qr_always_displays "WIFI;no fields here")))).
  reflexivity.
Defined.

(** ** Colours offered and colours known *)

(** X6. The colour names offered by [get_available_colors] and the keys of
    [color_map] are the same twelve names, all in lower case: a colour
    taken from the offered list is always found in the table and never
    replaced by the default of its role. *)
Theorem available_colors_are_known :
  dom color_map = list_to_set get_available_colors /\
  NoDup get_available_colors /\
  Forall (fun name =>
            lower name = name /\
            exists v, color_map !! name = Some v /\
                      forall dflt, color_get name dflt = v)
         get_available_colors.
Proof.
  split; [|split].
  - apply (bool_decide_unpack _). vm_compute. exact I.
  - apply (bool_decide_unpack _). vm_compute. exact I.
  - repeat constructor; eexists; (split; [reflexivity|intros dflt; reflexivity]).
Qed.

(** ** The image drawn by the custom path *)

Module RenderFacts.




(** A pixel strictly inside a block is covered by the box of that block's
    module only. *)
Lemma painted_interior modules n row col dx dy :
  row < n -> col < n -> 0 < dx < scale -> 0 < dy < scale ->
  painted modules n (col * scale + dx) (row * scale + dy) = dark modules row col.
Proof.
  intros Hrow Hcol Hdx Hdy. unfold painted.
  destruct (dark modules row col) eqn:E.
  - apply (Render.existsb_seq_true _ n row Hrow).
    apply (Render.existsb_seq_true _ n col Hcol).
    rewrite E. cbn [andb]. unfold covers, scale in *.
    repeat (apply andb_true_iff; split); apply Nat.leb_le; lia.
  - apply not_true_is_false. intros H.
    apply existsb_exists in H as (r & _ & H).
    apply existsb_exists in H as (c & _ & H).
    apply andb_true_iff in H as [Hd Hc]. unfold covers, scale in *.
    repeat (apply andb_true_iff in Hc as [Hc ?]).
    repeat match goal with
           | K : (_ <=? _) = true |- _ => apply Nat.leb_le in K
           end.
    assert (r = row) as -> by lia. assert (c = col) as -> by lia.
    congruence.
Qed.

(** The box of a dark module reaches one pixel past its block. *)
Lemma painted_border modules n row col dx dy :
  row < n -> col < n -> dark modules row col = true ->
  dx <= scale -> dy <= scale ->
  painted modules n (col * scale + dx) (row * scale + dy) = true.
Proof.
  intros Hrow Hcol Hdark Hdx Hdy. unfold painted.
  apply (Render.existsb_seq_true _ n row Hrow).
  apply (Render.existsb_seq_true _ n col Hcol).
  rewrite Hdark. cbn [andb]. unfold covers, scale in *.
  repeat (apply andb_true_iff; split); apply Nat.leb_le; lia.
Qed.

End RenderFacts.

(** X7. For a square matrix of any size and any two colour names the
    custom path builds an image of ten pixels per module and side, in two
    colours only; every pixel of the block of a dark module has the
    foreground colour, and every pixel strictly inside the block of a
    light module (not on its first row or column) has the background
    colour. *)
Theorem colored_render_shows_matrix (n : nat) (qr_code : qrcode)
    (fg_color bg_color : string) :
  square n (code qr_code) ->
  exists img,
    render_colored qr_code fg_color bg_color = Ok img /\
    img_width img = n * 10 /\ img_height img = n * 10 /\
    (forall x y, x < n * 10 -> y < n * 10 ->
       PIL.getpixel img x y = Some (fg_rgb_of fg_color) \/
       PIL.getpixel img x y = Some (bg_rgb_of bg_color)) /\
    (forall row col dx dy,
       row < n -> col < n -> dx < 10 -> dy < 10 ->
       dark (code qr_code) row col = true ->
       PIL.getpixel img (col * 10 + dx) (row * 10 + dy) = Some (fg_rgb_of fg_color)) /\
    (forall row col dx dy,
       row < n -> col < n -> 0 < dx < 10 -> 0 < dy < 10 ->
       dark (code qr_code) row col = false ->
       PIL.getpixel img (col * 10 + dx) (row * 10 + dy) = Some (bg_rgb_of bg_color)).
Proof.
  intros Hsq.
  destruct (Render.render_colored_pixels n qr_code fg_color bg_color Hsq)
    as (img & E & W & H & P).
  exists img. unfold scale in W, H.
  split; [exact E|]. split; [exact W|]. split; [exact H|].
  assert (forall x y, x < n * 10 -> y < n * 10 ->
            PIL.getpixel img x y = Some (img_pixel img x y)) as Hget.
  { intros x y Hx Hy. unfold PIL.getpixel. rewrite W, H.
    apply Nat.ltb_lt in Hx, Hy. now rewrite Hx, Hy. }
  split; [|split].
  - intros x y Hx Hy. rewrite (Hget x y Hx Hy), P.
    destruct (painted (code qr_code) n x y); [now left|now right].
  - intros row col dx dy Hrow Hcol Hdx Hdy Hd.
    rewrite Hget by lia. rewrite P.
    pose proof (Render.painted_block _ n row col dx dy Hrow Hcol Hd Hdx Hdy) as Hp.
    unfold scale in Hp. now rewrite Hp.
  - intros row col dx dy Hrow Hcol Hdx Hdy Hd.
    rewrite Hget by lia. rewrite P.
    pose proof (RenderFacts.painted_interior (code qr_code) n row col dx dy
                  Hrow Hcol Hdx Hdy) as Hp.
    unfold scale in Hp. now rewrite Hp, Hd.
Qed.

Lemma colored_render_shows_matrix_witness :
  exists img,
    render_colored sample_qr "Red" "cyan" = Ok img /\
    img_width img = 21 * 10 /\ img_height img = 21 * 10 /\
    (forall x y, x < 21 * 10 -> y < 21 * 10 ->
       PIL.getpixel img x y = Some (fg_rgb_of "Red") \/
       PIL.getpixel img x y = Some (bg_rgb_of "cyan")) /\
    (forall row col dx dy,
       row < 21 -> col < 21 -> dx < 10 -> dy < 10 ->
       dark (code sample_qr) row col = true ->
       PIL.getpixel img (col * 10 + dx) (row * 10 + dy) = Some (fg_rgb_of "Red")) /\
    (forall row col dx dy,
       row < 21 -> col < 21 -> 0 < dx < 10 -> 0 < dy < 10 ->
       dark (code sample_qr) row col = false ->
       PIL.getpixel img (col * 10 + dx) (row * 10 + dy) = Some (bg_rgb_of "cyan")).
Proof.
  apply (colored_render_shows_matrix 21 sample_qr "Red" "cyan").
  split; [reflexivity|]. repeat constructor.
Defined.

(** X8. The box filled for a dark module includes its far corner, so it is
    eleven pixels wide and high: besides its own block a dark module
    paints the first pixel column of the module to its right and the
    first pixel row of the module below it, whatever those modules are. *)
Theorem dark_module_paints_past_its_block (n : nat) (qr_code : qrcode)
    (fg_color bg_color : string) (row col : nat) :
  square n (code qr_code) ->
  row < n -> col < n ->
  dark (code qr_code) row col = true ->
  exists img,
    render_colored qr_code fg_color bg_color = Ok img /\
    (forall dy, dy <= 10 -> col + 1 < n -> row * 10 + dy < n * 10 ->
       PIL.getpixel img ((col + 1) * 10) (row * 10 + dy) = Some (fg_rgb_of fg_color)) /\
    (forall dx, dx <= 10 -> row + 1 < n -> col * 10 + dx < n * 10 ->
       PIL.getpixel img (col * 10 + dx) ((row + 1) * 10) = Some (fg_rgb_of fg_color)).
Proof.
  intros Hsq Hrow Hcol Hd.
  destruct (Render.render_colored_pixels n qr_code fg_color bg_color Hsq)
    as (img & E & W & H & P).
  exists img. unfold scale in W, H. split; [exact E|].
  assert (forall x y, x < n * 10 -> y < n * 10 ->
            PIL.getpixel img x y = Some (img_pixel img x y)) as Hget.
  { intros x y Hx Hy. unfold PIL.getpixel. rewrite W, H.
    apply Nat.ltb_lt in Hx, Hy. now rewrite Hx, Hy. }
  split.
  - intros dy Hdy Hnext Hy. rewrite Hget by lia. rewrite P.
    pose proof (RenderFacts.painted_border (code qr_code) n row col 10 dy
                  Hrow Hcol Hd (le_n _) Hdy) as Hp.
    unfold scale in Hp.
    replace ((col + 1) * 10) with (col * 10 + 10) by lia. now rewrite Hp.
  - intros dx Hdx Hnext Hx. rewrite Hget by lia. rewrite P.
    pose proof (RenderFacts.painted_border (code qr_code) n row col dx 10
                  Hrow Hcol Hd Hdx (le_n _)) as Hp.
    unfold scale in Hp.
    replace ((row + 1) * 10) with (row * 10 + 10) by lia. now rewrite Hp.
Qed.

Lemma dark_module_paints_past_its_block_witness :
  exists img,
    render_colored sample_qr "blue" "yellow" = Ok img /\
    (forall dy, dy <= 10 -> 6 + 1 < 21 -> 0 * 10 + dy < 21 * 10 ->
       PIL.getpixel img ((6 + 1) * 10) (0 * 10 + dy) = Some (fg_rgb_of "blue")) /\
    (forall dx, dx <= 10 -> 0 + 1 < 21 -> 6 * 10 + dx < 21 * 10 ->
       PIL.getpixel img (6 * 10 + dx) ((0 + 1) * 10) = Some (fg_rgb_of "blue")).
Proof.
  apply (dark_module_paints_past_its_block 21 sample_qr "blue" "yellow" 0 6).
  - split; [reflexivity|]. repeat constructor.
  - lia.
  - lia.
  - reflexivity.
Defined.



(** X10. [generate_colored_qr] writes at most one file and can only fail
    through the writer of the encoding library: either it returns after
    writing exactly one image on the output path (its own, or the library's
    when the custom path failed), or the library writer raised, its
    exception is the one that propagates, and nothing was written. *)
Theorem generate_colored_qr_one_file (w : world) (qr_code : qrcode)
    (output_path fg_color bg_color : string) :
  (outcome (generate_colored_qr w qr_code output_path fg_color bg_color) = Ok tt /\
   (artifacts_in (trace_of (generate_colored_qr w qr_code output_path fg_color bg_color))
    = [ColoredPng output_path] \/
    artifacts_in (trace_of (generate_colored_qr w qr_code output_path fg_color bg_color))
    = [BuiltinPng output_path 10])) \/
  (exists e,
     outcome (generate_colored_qr w qr_code output_path fg_color bg_color) = Raise e /\
     qr_png w qr_code output_path 10 = Raise e /\
     artifacts_in (trace_of (generate_colored_qr w qr_code output_path fg_color bg_color))
     = []).
Proof.
  unfold generate_colored_qr, colored_try, builtin_png.
  destruct (render_colored qr_code fg_color bg_color) as [img|e0];
    [destruct (img_save w img output_path) as [[]|e1] eqn:Es|];
    destruct (qr_png w qr_code output_path 10) as [[]|e2] eqn:Ep;
    unfold lift, bind, try_except, print, call, trace_of, outcome;
    cbn beta iota; rewrite ?Es, ?Ep; cbn;
    first [ left; split; [reflexivity|]; first [now left | now right]
          | right; eexists; repeat split ].
Qed.

(** ** The files written by generate_qr *)

Ltac close_members :=
  cbn; intros ? Hin;
  repeat (apply elem_of_cons in Hin as [->|Hin]; [tauto|]);
  now apply elem_of_nil in Hin.

(** X11. Whatever happens during a call of [generate_qr], it writes only to
    the SVG path and the PNG path built from the file name under qrcodes/,
    and at most two files. *)
Theorem generate_qr_writes_only_its_paths (w : world)
    (raw_text file_name output_format fg_color bg_color : string) :
  (forall a,
      a ∈ artifacts_in (trace_of (generate_qr w raw_text file_name output_format
                                    fg_color bg_color)) ->
      a = SvgFile (svg_path_of file_name) \/
      a = BuiltinPng (png_path_of file_name) 10 \/
      a = ColoredPng (png_path_of file_name)) /\
  length (artifacts_in (trace_of (generate_qr w raw_text file_name output_format
                                    fg_color bg_color))) <= 2.
Proof.
  unfold svg_path_of, png_path_of.
  unfold generate_qr, generate_qr_try, write_svg, write_png,
    generate_colored_qr, colored_try, builtin_png.
  explore; (split; [close_members | cbn; lia]).
Qed.

(** X12. A successful call has written the files of its format and no
    other: the SVG for svg, one PNG for png, the SVG then one PNG for
    both, and nothing at all for any other format text, which is accepted
    silently.  The format is compared in lower case. *)
Theorem generate_qr_files_of_format (w : world)
    (raw_text file_name output_format fg_color bg_color : string) :
  outcome (generate_qr w raw_text file_name output_format fg_color bg_color) = Ok true ->
  (lower output_format = "svg" ->
   artifacts_in (trace_of (generate_qr w raw_text file_name output_format
                             fg_color bg_color))
   = [SvgFile (svg_path_of file_name)]) /\
  (lower output_format = "png" ->
   artifacts_in (trace_of (generate_qr w raw_text file_name output_format
                             fg_color bg_color))
   = [BuiltinPng (png_path_of file_name) 10] \/
   artifacts_in (trace_of (generate_qr w raw_text file_name output_format
                             fg_color bg_color))
   = [ColoredPng (png_path_of file_name)]) /\
  (lower output_format = "both" ->
   artifacts_in (trace_of (generate_qr w raw_text file_name output_format
                             fg_color bg_color))
   = [SvgFile (svg_path_of file_name); BuiltinPng (png_path_of file_name) 10] \/
   artifacts_in (trace_of (generate_qr w raw_text file_name output_format
                             fg_color bg_color))
   = [SvgFile (svg_path_of file_name); ColoredPng (png_path_of file_name)]) /\
  (lower output_format <> "svg" -> lower output_format <> "png" ->
   lower output_format <> "both" ->
   artifacts_in (trace_of (generate_qr w raw_text file_name output_format
                             fg_color bg_color)) = []).
Proof.
  unfold svg_path_of, png_path_of.
  unfold generate_qr, generate_qr_try, write_svg, write_png,
    generate_colored_qr, colored_try, builtin_png.
  explore; intros Hout; try discriminate Hout;
    repeat match goal with
           | H : String.eqb _ _ = true |- _ => apply String.eqb_eq in H
           | H : String.eqb _ _ = false |- _ => apply String.eqb_neq in H
           end;
    (split; [|split; [|split]]); intros; try congruence; cbn;
    first [reflexivity | now left | now right].
Qed.

Lemma generate_qr_files_of_format_witness :
  (artifacts_in (trace_of (generate_qr calm_world "test" "t" "PNG" "red" "white"))
   = [BuiltinPng (png_path_of "t") 10] \/
   artifacts_in (trace_of (generate_qr calm_world "test" "t" "PNG" "red" "white"))
   = [ColoredPng (png_path_of "t")]) /\
  artifacts_in (trace_of (generate_qr calm_world "test" "t" "jpeg" "red" "white")) = [].
Proof.
  split.
  - apply (proj1 (proj2
             (generate_qr_files_of_format calm_world "test" "t" "PNG" "red" "white"
                eq_refl))).
    reflexivity.
  - apply (proj2 (proj2 (proj2
             (generate_qr_files_of_format calm_world "test" "t" "jpeg" "red" "white"
                eq_refl)))); discriminate.
Defined.

(** X13. For the formats svg and both everything hangs on the SVG step,
    which comes first: when [qr_code.svg(scale=10)] raises (and the
    encoding library does refuse this call, which lacks the file argument
    its method requires), the call prints the error and returns [False]
    without having written any file; for both, the PNG is not even
    attempted. *)
Theorem generate_qr_svg_failure_writes_nothing (w : world)
    (raw_text file_name output_format fg_color bg_color : string)
    (qr_code : qrcode) (art : string) (e : exn) :
  lower output_format = "svg" \/ lower output_format = "both" ->
  pyqrcode_create w raw_text = Ok qr_code ->
  qr_terminal w qr_code = Ok art ->
  qr_svg w qr_code 10 = Raise e ->
  generate_qr w raw_text file_name output_format fg_color bg_color
  = ([Did (CCreate raw_text); Did (CTerminal qr_code); Printed (LTerminal art);
      Failed (CSvg qr_code 10) e; Printed (LErrGenerating e)], Ok false) /\
  artifacts_in (trace_of (generate_qr w raw_text file_name output_format
                            fg_color bg_color)) = [].
Proof.
  intros Hf Hc Ht Hs.
  assert (generate_qr w raw_text file_name output_format fg_color bg_color
          = ([Did (CCreate raw_text); Did (CTerminal qr_code); Printed (LTerminal art);
              Failed (CSvg qr_code 10) e; Printed (LErrGenerating e)], Ok false))
    as Hrun.
  { unfold generate_qr, generate_qr_try, write_svg.
    rewrite Hc. run_steps. rewrite Ht. run_steps.
    destruct Hf as [-> | ->].
    - change (String.eqb "svg" "svg") with true. cbn iota. rewrite Hs. reflexivity.
    - change (String.eqb "both" "svg") with false.
      change (String.eqb "both" "png") with false.
      change (String.eqb "both" "both") with true.
      cbn iota. rewrite Hs. reflexivity. }
  split; [exact Hrun|]. rewrite Hrun. reflexivity.
Qed.

Lemma generate_qr_svg_failure_writes_nothing_witness :
  (generate_qr calm_world "test" "t" "both" "red" "white"
   = ([Did (CCreate "test"); Did (CTerminal (QRCode "test" (code sample_qr)));
       Printed (LTerminal "(terminal art)");
       Failed (CSvg (QRCode "test" (code sample_qr)) 10)
         (LibraryError "TypeError: svg is missing the argument file");
       Printed (LErrGenerating
                  (LibraryError "TypeError: svg is missing the argument file"))],
      Ok false) /\
   artifacts_in (trace_of (generate_qr calm_world "test" "t" "both" "red" "white"))
   = []) /\
  (generate_qr calm_world "test" "t" "SVG" "black" "white"
   = ([Did (CCreate "test"); Did (CTerminal (QRCode "test" (code sample_qr)));
       Printed (LTerminal "(terminal art)");
       Failed (CSvg (QRCode "test" (code sample_qr)) 10)
         (LibraryError "TypeError: svg is missing the argument file");
       Printed (LErrGenerating
                  (LibraryError "TypeError: svg is missing the argument file"))],
      Ok false) /\
   artifacts_in (trace_of (generate_qr calm_world "test" "t" "SVG" "black" "white"))
   = []).
Proof.
  split.
  - apply (generate_qr_svg_failure_writes_nothing calm_world "test" "t" "both"
             "red" "white" (QRCode "test" (code sample_qr)) "(terminal art)"
             (LibraryError "TypeError: svg is missing the argument file"));
      first [reflexivity | right; reflexivity].
  - apply (generate_qr_svg_failure_writes_nothing calm_world "test" "t" "SVG"
             "black" "white" (QRCode "test" (code sample_qr)) "(terminal art)"
             (LibraryError "TypeError: svg is missing the argument file"));
      first [reflexivity | left; reflexivity].
Defined.

(** X14. The encoder and the terminal display come first: when
    [pyqrcode.create] raises, or when rendering the code for the terminal
    raises, the call prints the error, returns [False] and has written no
    file, whatever the format and the colours. *)
Theorem generate_qr_stops_before_writing (w : world)
    (raw_text file_name output_format fg_color bg_color : string) :
  (forall e,
      pyqrcode_create w raw_text = Raise e ->
      generate_qr w raw_text file_name output_format fg_color bg_color
      = ([Failed (CCreate raw_text) e; Printed (LErrGenerating e)], Ok false)) /\
  (forall qr_code e,
      pyqrcode_create w raw_text = Ok qr_code ->
      qr_terminal w qr_code = Raise e ->
      generate_qr w raw_text file_name output_format fg_color bg_color
      = ([Did (CCreate raw_text); Failed (CTerminal qr_code) e;
          Printed (LErrGenerating e)], Ok false)).
Proof.
  split.
  - intros e Hc. unfold generate_qr, generate_qr_try. rewrite Hc. reflexivity.
  - intros qr_code e Hc Ht. unfold generate_qr, generate_qr_try.
    rewrite Hc. run_steps. rewrite Ht. reflexivity.
Qed.

Lemma generate_qr_stops_before_writing_witness :
  generate_qr no_encoder_world "test" "t" "both" "red" "white"
  = ([Failed (CCreate "test") (LibraryError "cannot encode");
      Printed (LErrGenerating (LibraryError "cannot encode"))], Ok false).
Proof.
  apply (proj1 (generate_qr_stops_before_writing no_encoder_world
                  "test" "t" "both" "red" "white")).
  reflexivity.
Defined.

(** X15. The colours are used for PNG output only: for the format svg,
    and for any format text other than png and both, a call with any two
    colours is the same run as the call with black and white, so that a
    colour asked for together with svg is dropped without a word. *)
Theorem generate_qr_colors_only_for_png (w : world)
    (raw_text file_name output_format fg_color bg_color : string) :
  lower output_format <> "png" -> lower output_format <> "both" ->
  generate_qr w raw_text file_name output_format fg_color bg_color
  = generate_qr w raw_text file_name output_format "black" "white".
Proof.
  intros Hpng Hboth. apply String.eqb_neq in Hpng, Hboth.
  unfold generate_qr, generate_qr_try. rewrite Hpng, Hboth. reflexivity.
Qed.

Lemma generate_qr_colors_only_for_png_witness :
  generate_qr calm_world "test" "t" "SVG" "red" "yellow"
  = generate_qr calm_world "test" "t" "SVG" "black" "white".
Proof.
  apply (generate_qr_colors_only_for_png calm_world "test" "t" "SVG" "red" "yellow");
    discriminate.
Defined.

(** ** Errors and the first-code policy of read_qr *)

(** X16. A file that exists but cannot be read ends in one error line and
    [False]: when [Image.open] raises, when the decode library raises, and
    when the bytes of the first code are not UTF-8, [read_qr] prints the
    error after the scanning line, prints no report and returns [False]. *)
Theorem read_qr_read_errors (w : world) (file_name : string) :
  path_exists w file_name = true ->
  (forall e,
      Image_open w file_name = Raise e ->
      read_qr w file_name
      = ([Printed LScanning; Failed (CImageOpen file_name) e;
          Printed (LErrReading e)], Ok false)) /\
  (forall img e,
      Image_open w file_name = Ok img ->
      pyzbar_decode w img = Raise e ->
      read_qr w file_name
      = ([Printed LScanning; Did (CImageOpen file_name); Failed (CDecode img) e;
          Printed (LErrReading e)], Ok false)) /\
  (forall img first rest e,
      Image_open w file_name = Ok img ->
      pyzbar_decode w img = Ok (first :: rest) ->
      utf8_decode w (data first) = Raise e ->
      read_qr w file_name
      = ([Printed LScanning; Did (CImageOpen file_name); Did (CDecode img);
          Failed (CUtf8 (data first)) e; Printed (LErrReading e)], Ok false)).
Proof.
  intros Hp. unfold read_qr, read_qr_try. rewrite Hp. cbn [negb].
  split; [|split].
  - intros e Hi. rewrite Hi. reflexivity.
  - intros img e Hi Hd. rewrite Hi. run_steps. rewrite Hd. reflexivity.
  - intros img first rest e Hi Hd Hu. rewrite Hi. run_steps. rewrite Hd.
    run_steps. rewrite Hu. reflexivity.
Qed.

Lemma read_qr_read_errors_witness :
  read_qr no_png_world "qrcodes/wifi.png"
  = ([Printed LScanning;
      Failed (CImageOpen "qrcodes/wifi.png") (LibraryError "cannot identify image file");
      Printed (LErrReading (LibraryError "cannot identify image file"))], Ok false) /\
  outcome (read_qr no_encoder_world "qrcodes/wifi.png") = Ok false.
Proof.
  split.
  - apply (proj1 (read_qr_read_errors no_png_world "qrcodes/wifi.png" eq_refl)).
    reflexivity.
  - rewrite (proj1 (proj2 (read_qr_read_errors no_encoder_world "qrcodes/wifi.png"
                             eq_refl))
               (PIL.Image_new 1 1 (0, 0, 0)%Z) (LibraryError "zbar failure")
               eq_refl eq_refl).
    reflexivity.
Defined.

(** X17. Only the first decoded code counts: when the image holds several
    codes, the run of [read_qr] (its lines, its calls and its result) is
    determined by the first entry of the list alone; the others are
    neither decoded as text nor reported. *)
Theorem read_qr_uses_first_code_only (w : world) (file_name : string)
    (img : image) (first : Decoded) (rest : list Decoded) (decoded_text : string) :
  path_exists w file_name = true ->
  Image_open w file_name = Ok img ->
  pyzbar_decode w img = Ok (first :: rest) ->
  utf8_decode w (data first) = Ok decoded_text ->
  read_qr w file_name
  = ([Printed LScanning; Did (CImageOpen file_name); Did (CDecode img);
      Did (CUtf8 (data first)); Printed LDecodedOk;
      Printed (LContent decoded_text); Printed (LType (type first))]
       ++ trace_of (classify decoded_text), Ok true) /\
  calls_in (trace_of (read_qr w file_name))
  = [CImageOpen file_name; CDecode img; CUtf8 (data first)].
Proof.
  intros Hp Hi Hd Hu.
  rewrite (read_qr_report w file_name img first rest decoded_text Hp Hi Hd Hu).
  split; [reflexivity|].
  cbn [trace_of fst]. unfold classify.
  destruct (startswith "WIFI:" decoded_text).
  - destruct (parse_wifi_qr_display decoded_text) as (d & _ & ->). reflexivity.
  - repeat (match goal with
            | |- context [if ?b then _ else _] => destruct b
            end; try reflexivity).
Qed.

Lemma read_qr_uses_first_code_only_witness :
  read_qr two_codes_world "qrcodes/wifi.png"
  = ([Printed LScanning; Did (CImageOpen "qrcodes/wifi.png");
      Did (CDecode (PIL.Image_new 1 1 (0, 0, 0)%Z));
      Did (CUtf8 "tel:+15550100"); Printed LDecodedOk;
      Printed (LContent "tel:+15550100"); Printed (LType "QRCODE")]
       ++ trace_of (classify "tel:+15550100"), Ok true) /\
  calls_in (trace_of (read_qr two_codes_world "qrcodes/wifi.png"))
  = [CImageOpen "qrcodes/wifi.png"; CDecode (PIL.Image_new 1 1 (0, 0, 0)%Z);
     CUtf8 "tel:+15550100"].
Proof.
  apply (read_qr_uses_first_code_only two_codes_world "qrcodes/wifi.png"
           (PIL.Image_new 1 1 (0, 0, 0)%Z)
           {| data := "tel:+15550100"; type := "QRCODE" |}
           [ {| data := "https://example.org"; type := "QRCODE" |} ]
           "tel:+15550100"); reflexivity.
Defined.

(** X18. The four prefixes tested by [read_qr] exclude one another: for
    every text at most one of the tests WIFI:, http, tel: and mailto:
    holds, so the outcome of the classification does not depend on the
    order of the tests, and at most one kind of tag is printed. *)
Theorem classification_tests_exclusive (decoded_text : string) :
  Nat.b2n (startswith "WIFI:" decoded_text)
  + Nat.b2n (startswith "http" decoded_text)
  + Nat.b2n (startswith "tel:" decoded_text)
  + Nat.b2n (startswith "mailto:" decoded_text) <= 1 /\
  length (List.filter is_tag_line (printed_in (trace_of (classify decoded_text)))) <= 1.
Proof.
  split; [apply prefixes_disjoint|].
  unfold classify.
  destruct (startswith "WIFI:" decoded_text).
  - destruct (parse_wifi_qr_display decoded_text) as (d & _ & ->). cbn. lia.
  - repeat (match goal with
            | |- context [if ?b then _ else _] => destruct b
            end; try (cbn; lia)).
Qed.

(** ** What validate_input accepts *)

(** X19. The texts that [validate_input] accepts are exactly those that are
    not blank once stripped and hold at most 2953 characters; the length
    is that of the text as given, surrounding whitespace included. *)
Theorem validate_input_accepts_exactly (text : string) :
  fst (validate_input text) = true <->
  strip text <> EmptyString /\ len text <= 2953.
Proof.
  split.
  - apply validate_input_accepts.
  - intros [Hne Hlen]. unfold validate_input.
    destruct (strip_empty_of_empty text Hne) as [-> ->].
    apply Nat.ltb_ge in Hlen. now rewrite Hlen.
Qed.

(** ** The command line *)

Module CliFacts.
Import Cli.

Lemma read_qr_returns w file_name :
  exists ok, outcome (read_qr w file_name) = Ok ok.
Proof.
  unfold read_qr.
  destruct (read_qr_try w file_name) as [t [b|e]]; run_steps; eauto.
Qed.

Lemma generate_wifi_qr_returns w ssid password security hidden file_name :
  exists ok, outcome (generate_wifi_qr w ssid password security hidden file_name) = Ok ok.
Proof.
  rewrite generate_wifi_qr_unfold.
  destruct (generate_qr_returns w (wifi_string ssid password security hidden)
              (wifi_file_name w ssid file_name) "png" "black" "white") as [ok Hok].
  destruct (generate_qr w _ _ "png" "black" "white") as [t r].
  cbn [outcome snd] in Hok. subst r. exists ok. reflexivity.
Qed.

(** A call that returns a value passes it on to the top level. *)
Lemma run_returns {A} (m : M A) (a : A) :
  outcome m = Ok a -> run m = (Inner <$> trace_of m, Done a).
Proof. intros H. unfold run. now rewrite H. Qed.


Lemma inner_events_app t1 t2 :
  inner_events (t1 ++ t2) = inner_events t1 ++ inner_events t2.
Proof. apply omap_app. Qed.



Lemma shown_in_app t1 t2 : shown_in (t1 ++ t2) = shown_in t1 ++ shown_in t2.
Proof. apply omap_app. Qed.

Lemma asked_in_app t1 t2 : asked_in (t1 ++ t2) = asked_in t1 ++ asked_in t2.
Proof. apply omap_app. Qed.

Lemma shown_in_inner (t : list event) : shown_in (Inner <$> t) = [].
Proof. induction t as [|ev t IH]; [reflexivity|exact IH]. Qed.

Lemma asked_in_inner (t : list event) : asked_in (Inner <$> t) = [].
Proof. induction t as [|ev t IH]; [reflexivity|exact IH]. Qed.

Lemma interrupted_in_app t1 t2 :
  interrupted_in (t1 ++ t2) = interrupted_in t1 || interrupted_in t2.
Proof. apply existsb_app. Qed.

Lemma input_ended_in_app t1 t2 :
  input_ended_in (t1 ++ t2) = input_ended_in t1 || input_ended_in t2.
Proof. apply existsb_app. Qed.

Lemma interrupted_in_inner (t : list event) : interrupted_in (Inner <$> t) = false.
Proof. induction t as [|ev t IH]; [reflexivity|exact IH]. Qed.

Lemma input_ended_in_inner (t : list event) : input_ended_in (Inner <$> t) = false.
Proof. induction t as [|ev t IH]; [reflexivity|exact IH]. Qed.

Lemma shown_in_cons ev t :
  shown_in (ev :: t)
  = match ev with Shown l => [l] | _ => [] end ++ shown_in t.
Proof. destruct ev; reflexivity. Qed.

Lemma asked_in_cons ev t :
  asked_in (ev :: t)
  = match ev with Asked p _ => [p] | _ => [] end ++ asked_in t.
Proof. destruct ev; reflexivity. Qed.

Lemma interrupted_in_cons ev t :
  interrupted_in (ev :: t)
  = match ev with Asked _ CtrlC => true | _ => false end || interrupted_in t.
Proof. reflexivity. Qed.

Lemma input_ended_in_cons ev t :
  input_ended_in (ev :: t)
  = match ev with Asked _ EndOfInput => true | _ => false end || input_ended_in t.
Proof. reflexivity. Qed.

End CliFacts.

Import Cli.

Ltac top_steps :=
  cbn [tbind ttry show tret ask fst snd app negb].



Example main_wifi_run :
  artifacts_in (inner_events (fst
    (main calm_world wifi_user
       (Args (Some "ignored text") (Some "home") (Some "ignored.png")
             "svg" "red" "yellow" (Some ["HomeNet"; "secret123"; "WEP"; "TRUE"])))))
  = [BuiltinPng "qrcodes/home.png" 10] /\
  calls_in (inner_events (fst
    (main calm_world wifi_user
       (Args None None None "png" "black" "white"
             (Some ["HomeNet"; "secret123"; "WEP"; "TRUE"])))))
  = [CCreate "WIFI:T:WEP;S:HomeNet;P:secret123;H:true;;";
     CTerminal (QRCode "WIFI:T:WEP;S:HomeNet;P:secret123;H:true;;" (code sample_qr));
     CPng (QRCode "WIFI:T:WEP;S:HomeNet;P:secret123;H:true;;" (code sample_qr))
       "qrcodes/wifi_HomeNet_20240101_120000.png" 10].
Proof. split; reflexivity. Qed.

(** X21. A WiFi list with a single value is refused: [main] prints the
    banner and the two usage lines, calls nothing and ends normally,
    whatever the other arguments are. *)
Theorem main_wifi_needs_password (w : world) (c : console) (a : args) (ssid : string) :
  wifi a = Some [ssid] ->
  main w c a
  = ([Shown MBanner; Shown MWifiNeedsArgs; Shown MWifiUsage], Done tt).
Proof.
  intros Hwifi. unfold main, main_try. rewrite Hwifi. reflexivity.
Qed.

Lemma main_wifi_needs_password_witness :
  main no_encoder_world closed_input
    (Args (Some "text") None (Some "code.png") "both" "red" "white" (Some ["HomeNet"]))
  = ([Shown MBanner; Shown MWifiNeedsArgs; Shown MWifiUsage], Done tt).
Proof.
  apply (main_wifi_needs_password no_encoder_world closed_input
           (Args (Some "text") None (Some "code.png") "both" "red" "white"
                 (Some ["HomeNet"])) "HomeNet").
  reflexivity.
Defined.

(** X22. Without a WiFi list, a path to decode comes before a text: [main]
    prints the banner, runs [read_qr] on the path, prints the success line
    when it returned [True] and ends normally; a text given at the same
    time is not encoded. *)
Theorem main_decode_before_input (w : world) (c : console) (a : args) (path : string) :
  wifi a = None ->
  decode a = Some path -> path <> EmptyString ->
  exists ok,
    outcome (read_qr w path) = Ok ok /\
    main w c a
    = (Shown MBanner :: (Inner <$> trace_of (read_qr w path))
         ++ (if ok then [Shown MDecodeDone] else []),
       Done tt).
Proof.
  intros Hwifi Hdec Hpath.
  destruct (CliFacts.read_qr_returns w path) as [ok Hok].
  exists ok. split; [exact Hok|].
  unfold main, main_try. rewrite Hwifi, Hdec.
  destruct path as [|x path]; [now elim Hpath|].
  unfold main_decode. rewrite (CliFacts.run_returns _ ok Hok).
  destruct ok; top_steps; rewrite ?app_nil_r; reflexivity.
Qed.

Lemma main_decode_before_input_witness :
  exists ok,
    outcome (read_qr calm_world "qrcodes/wifi.png") = Ok ok /\
    main calm_world closed_input
      (Args (Some "some text") None (Some "qrcodes/wifi.png") "png" "black" "white" None)
    = (Shown MBanner :: (Inner <$> trace_of (read_qr calm_world "qrcodes/wifi.png"))
         ++ (if ok then [Shown MDecodeDone] else []),
       Done tt).
Proof.
  apply (main_decode_before_input calm_world closed_input
           (Args (Some "some text") None (Some "qrcodes/wifi.png")
                 "png" "black" "white" None) "qrcodes/wifi.png").
  - reflexivity.
  - reflexivity.
  - discriminate.
Defined.



(** Evaluate the observations of a trace made of known events and of the
    traces of the orchestrators. *)
Ltac observe :=
  cbn [fst snd];
  repeat rewrite ?CliFacts.shown_in_cons, ?CliFacts.asked_in_cons,
    ?CliFacts.interrupted_in_cons, ?CliFacts.input_ended_in_cons,
    ?CliFacts.shown_in_app, ?CliFacts.asked_in_app,
    ?CliFacts.interrupted_in_app, ?CliFacts.input_ended_in_app,
    ?CliFacts.shown_in_inner, ?CliFacts.asked_in_inner,
    ?CliFacts.interrupted_in_inner, ?CliFacts.input_ended_in_inner;
  cbn.

(** Replace a call of an orchestrator by its trace and its Boolean. *)
Ltac settle_run :=
  let ok := fresh "ok" in
  let Hok := fresh "Hok" in
  match goal with
  | |- context [run (generate_qr ?w ?a ?b ?c ?d ?e)] =>
      destruct (generate_qr_returns w a b c d e) as [ok Hok];
      rewrite (CliFacts.run_returns _ ok Hok);
      generalize (trace_of (generate_qr w a b c d e)); intro
  | |- context [run (generate_wifi_qr ?w ?a ?b ?c ?d ?e)] =>
      destruct (CliFacts.generate_wifi_qr_returns w a b c d e) as [ok Hok];
      rewrite (CliFacts.run_returns _ ok Hok);
      generalize (trace_of (generate_wifi_qr w a b c d e)); intro
  | |- context [run (read_qr ?w ?a)] =>
      destruct (CliFacts.read_qr_returns w a) as [ok Hok];
      rewrite (CliFacts.run_returns _ ok Hok);
      generalize (trace_of (read_qr w a)); intro
  end;
  destruct ok; top_steps.

Ltac leaf := unfold ends_as_answered; observe; auto.

Module MainFacts.

Lemma main_wifi_ends w a values :
  ends_as_answered (main_wifi w a values) /\ asked_in (fst (main_wifi w a values)) = [].
Proof.
  unfold main_wifi. destruct values as [|ssid [|password more]];
    try (split; [leaf|reflexivity]).
  settle_run; (split; [leaf|observe; reflexivity]).
Qed.

Lemma main_decode_ends w path :
  ends_as_answered (main_decode w path) /\ asked_in (fst (main_decode w path)) = [].
Proof.
  unfold main_decode. settle_run; (split; [leaf|observe; reflexivity]).
Qed.

Lemma main_input_ends w a text :
  ends_as_answered (main_input w a text) /\ asked_in (fst (main_input w a text)) = [].
Proof.
  unfold main_input. destruct (validate_input text) as [[] message]; cbn [negb].
  - top_steps. settle_run; (split; [leaf|observe; reflexivity]).
  - split; [leaf|reflexivity].
Qed.

Lemma main_interactive_ends w c : ends_as_answered (main_interactive w c).
Proof.
  unfold main_interactive. top_steps.
  destruct (input_line c AskChoice) as [typed| |]; top_steps; [|leaf|leaf].
  destruct (String.eqb (PyStr.strip typed) "1").
  { destruct (input_line c AskText) as [raw_text| |]; top_steps; [|leaf|leaf].
    destruct (validate_input raw_text) as [[] message]; cbn [negb]; [|leaf].
    settle_run; leaf. }
  destruct (String.eqb (PyStr.strip typed) "2").
  { destruct (input_line c AskSsid) as [ssid| |]; top_steps; [|leaf|leaf].
    destruct (input_line c AskPassword) as [password| |]; top_steps; [|leaf|leaf].
    destruct (input_line c AskSecurity) as [security| |]; top_steps; [|leaf|leaf].
    destruct (input_line c AskHidden) as [hidden| |]; top_steps; [|leaf|leaf].
    settle_run; leaf. }
  destruct (String.eqb (PyStr.strip typed) "3").
  { destruct (input_line c AskPath) as [file_path| |]; top_steps; [|leaf|leaf].
    settle_run; leaf. }
  leaf.
Qed.

Lemma main_try_ends w c a : ends_as_answered (main_try w c a).
Proof.
  unfold main_try.
  destruct (wifi a) as [[|v values]|];
    try apply main_wifi_ends;
    (destruct (decode a) as [[|x path]|];
     try apply main_decode_ends;
     (destruct (input a) as [[|y text]|];
      first [apply main_input_ends | apply main_interactive_ends])).
Qed.


End MainFacts.


(** X24. A failure of [input] at a prompt is handled inside [main]: when
    a prompt is answered by KeyboardInterrupt, [main] prints the goodbye
    line as its last line and returns normally; when the input ends at a
    prompt, it prints the unexpected-error line and the traceback as its
    last lines and returns normally.  In both cases no orchestrator was
    called: nothing was encoded, written or decoded. *)
Theorem main_handles_prompt_failures (w : world) (c : console) (a : args) :
  (interrupted_in (fst (main w c a)) = true ->
   snd (main w c a) = Done tt /\
   inner_events (fst (main w c a)) = [] /\
   exists t, fst (main w c a) = t ++ [Shown MGoodbye]) /\
  (input_ended_in (fst (main w c a)) = true ->
   snd (main w c a) = Done tt /\
   inner_events (fst (main w c a)) = [] /\
   exists t e,
     fst (main w c a) = t ++ [Shown (MUnexpected e); Shown (MTraceback e)]).
Proof.
  pose proof (MainFacts.main_try_ends w c a) as H.
  unfold main. destruct (main_try w c a) as [t [[]|e|]];
    unfold ends_as_answered in H; cbn [fst snd] in H;
    destruct H as (H & _ & _); top_steps.
  - destruct H as [Hi He].
    split; intros Hx; exfalso; revert Hx; observe;
      rewrite ?app_nil_r, ?Hi, ?He; cbn; discriminate.
  - destruct H as (Hi & He & Hn). split; intros Hx.
    + exfalso. revert Hx. observe. rewrite ?Hi, ?He. cbn. discriminate.
    + split; [reflexivity|]. split.
      * change (Shown MBanner :: ?x) with ([Shown MBanner] ++ x).
        rewrite !CliFacts.inner_events_app, Hn. reflexivity.
      * exists (Shown MBanner :: t), e. reflexivity.
  - destruct H as (Hi & He & Hn). split; intros Hx.
    + split; [reflexivity|]. split.
      * change (Shown MBanner :: ?x) with ([Shown MBanner] ++ x).
        rewrite !CliFacts.inner_events_app, Hn. reflexivity.
      * exists (Shown MBanner :: t). reflexivity.
    + exfalso. revert Hx. observe. rewrite ?Hi, ?He. cbn. discriminate.
Qed.

Lemma main_handles_prompt_failures_witness :
  (snd (main calm_world impatient_user no_args) = Done tt /\
   inner_events (fst (main calm_world impatient_user no_args)) = [] /\
   exists t, fst (main calm_world impatient_user no_args) = t ++ [Shown MGoodbye]) /\
  (snd (main calm_world closed_input no_args) = Done tt /\
   inner_events (fst (main calm_world closed_input no_args)) = [] /\
   exists t e,
     fst (main calm_world closed_input no_args)
     = t ++ [Shown (MUnexpected e); Shown (MTraceback e)]).
Proof.
  split.
  - apply (proj1 (main_handles_prompt_failures calm_world impatient_user no_args)).
    reflexivity.
  - apply (proj2 (main_handles_prompt_failures calm_world closed_input no_args)).
    reflexivity.
Defined.



Example main_interrupted_and_closed :
  main calm_world impatient_user no_args
  = ([Shown MBanner; Shown MMenuTitle; Shown MMenuChoose; Shown MMenuText;
      Shown MMenuWifi; Shown MMenuDecode; Asked AskChoice CtrlC; Shown MGoodbye],
     Done tt) /\
  main calm_world closed_input no_args
  = ([Shown MBanner; Shown MMenuTitle; Shown MMenuChoose; Shown MMenuText;
      Shown MMenuWifi; Shown MMenuDecode; Asked AskChoice EndOfInput;
      Shown (MUnexpected (LibraryError "EOFError"));
      Shown (MTraceback (LibraryError "EOFError"))], Done tt).
Proof. split; reflexivity. Qed.

(** X26. The WiFi entry of the menu: with no task on the command line, a
    choice that is 2 once stripped, and the four answers typed, [main]
    runs [generate_wifi_qr] with the ssid and the password as typed, the
    security typed or WPA when the answer is empty, hidden exactly when
    the lower-cased answer starts with y, and the file name built from
    the ssid and the time; the success line follows when it returned
    [True]. *)
Theorem main_menu_wifi (w : world) (c : console) (a : args)
    (typed ssid password security hidden : string) :
  has_task a = false ->
  input_line c AskChoice = Typed typed -> PyStr.strip typed = "2" ->
  input_line c AskSsid = Typed ssid ->
  input_line c AskPassword = Typed password ->
  input_line c AskSecurity = Typed security ->
  input_line c AskHidden = Typed hidden ->
  exists ok,
    outcome (generate_wifi_qr w ssid password (menu_security security)
               (menu_hidden hidden) (menu_wifi_file_name w ssid)) = Ok ok /\
    main w c a
    = ([Shown MBanner; Shown MMenuTitle; Shown MMenuChoose; Shown MMenuText;
        Shown MMenuWifi; Shown MMenuDecode;
        Asked AskChoice (Typed typed); Asked AskSsid (Typed ssid);
        Asked AskPassword (Typed password); Asked AskSecurity (Typed security);
        Asked AskHidden (Typed hidden)]
         ++ (Inner <$> trace_of (generate_wifi_qr w ssid password
                                   (menu_security security) (menu_hidden hidden)
                                   (menu_wifi_file_name w ssid)))
         ++ (if ok then [Shown MWifiDone] else []),
       Done tt).
Proof.
  intros Htask Hc Hs H1 H2 H3 H4.
  assert (main_try w c a = main_interactive w c) as Htry.
  { unfold has_task in Htask. unfold main_try.
    destruct (wifi a) as [[|v values]|]; try discriminate Htask;
      (destruct (decode a) as [[|x path]|]; try discriminate Htask;
       (destruct (input a) as [[|y text]|]; try discriminate Htask; reflexivity)). }
  destruct (CliFacts.generate_wifi_qr_returns w ssid password (menu_security security)
              (menu_hidden hidden) (menu_wifi_file_name w ssid)) as [ok Hok].
  exists ok. split; [exact Hok|].
  unfold main. rewrite Htry. unfold main_interactive. top_steps.
  rewrite Hc. top_steps. rewrite Hs.
  change (String.eqb "2" "1") with false. change (String.eqb "2" "2") with true.
  cbn iota. rewrite H1. top_steps. rewrite H2. top_steps.
  rewrite H3. top_steps. rewrite H4. top_steps.
  fold (menu_security security). fold (menu_hidden hidden).
  fold (menu_wifi_file_name w ssid).
  rewrite (CliFacts.run_returns _ ok Hok).
  destruct ok; top_steps; rewrite ?app_nil_r; reflexivity.
Qed.

Lemma main_menu_wifi_witness :
  exists ok,
    outcome (generate_wifi_qr calm_world "HomeNet" "secret123"
               (menu_security EmptyString) (menu_hidden "Yes")
               (menu_wifi_file_name calm_world "HomeNet")) = Ok ok /\
    main calm_world wifi_user no_args
    = ([Shown MBanner; Shown MMenuTitle; Shown MMenuChoose; Shown MMenuText;
        Shown MMenuWifi; Shown MMenuDecode;
        Asked AskChoice (Typed " 2 "); Asked AskSsid (Typed "HomeNet");
        Asked AskPassword (Typed "secret123");
        Asked AskSecurity (Typed EmptyString); Asked AskHidden (Typed "Yes")]
         ++ (Inner <$> trace_of (generate_wifi_qr calm_world "HomeNet" "secret123"
                                   (menu_security EmptyString) (menu_hidden "Yes")
                                   (menu_wifi_file_name calm_world "HomeNet")))
         ++ (if ok then [Shown MWifiDone] else []),
       Done tt).
Proof.
  apply (main_menu_wifi calm_world wifi_user no_args
           " 2 " "HomeNet" "secret123" EmptyString "Yes"); reflexivity.
Defined.

Example main_menu_wifi_payload :
  calls_in (inner_events (fst (main calm_world wifi_user no_args)))
  = [CCreate "WIFI:T:WPA;S:HomeNet;P:secret123;H:true;;";
     CTerminal (QRCode "WIFI:T:WPA;S:HomeNet;P:secret123;H:true;;" (code sample_qr));
     CPng (QRCode "WIFI:T:WPA;S:HomeNet;P:secret123;H:true;;" (code sample_qr))
       "qrcodes/wifi_HomeNet_20240101_120000.png" 10].
Proof. reflexivity. Qed.



(** In a fresh directory, asking to decode the path qrcodes: the directory
    is created first, so [read_qr] finds the path and fails when it opens
    it as an image. *)
Example program_decodes_created_directory :
  program calm_world (after_makedirs calm_world "qrcodes") wifi_user
    (Args None None (Some "qrcodes") "png" "black" "white" None)
  = ([Shown (MCreatingDir "qrcodes"); MakeDirs "qrcodes" (Ok tt); Shown MDirCreated;
      Shown MBanner;
      Inner (Printed LScanning);
      Inner (Failed (CImageOpen "qrcodes") (LibraryError "IsADirectoryError"));
      Inner (Printed (LErrReading (LibraryError "IsADirectoryError")))],
     Done tt).
Proof. reflexivity. Qed.

Lemma main_without_task (w : world) (c : console) (a : args) :
  has_task a = false -> main_try w c a = main_interactive w c.
Proof.
  unfold has_task, main_try. intros Htask.
  destruct (wifi a) as [[|v values]|]; try discriminate Htask;
    (destruct (decode a) as [[|x path]|]; try discriminate Htask;
     (destruct (input a) as [[|y text]|]; try discriminate Htask; reflexivity)).
Qed.

(** X28. The text entry of the menu does not use the command line: with
    no task given, a choice that is 1 once stripped and a text typed at
    the prompt, [main] rejects the text when [validate_input] does, and
    otherwise runs [generate_qr] on it with the format png and the
    colours black and white, whatever format and colours the arguments
    hold, under a file name made of the time alone. *)
Theorem main_menu_text_uses_defaults (w : world) (c : console) (a : args)
    (typed raw_text : string) :
  has_task a = false ->
  input_line c AskChoice = Typed typed -> PyStr.strip typed = "1" ->
  input_line c AskText = Typed raw_text ->
  (fst (validate_input raw_text) = false ->
   main w c a
   = ([Shown MBanner; Shown MMenuTitle; Shown MMenuChoose; Shown MMenuText;
       Shown MMenuWifi; Shown MMenuDecode;
       Asked AskChoice (Typed typed); Asked AskText (Typed raw_text);
       Shown (MRejected (snd (validate_input raw_text)))], Done tt)) /\
  (fst (validate_input raw_text) = true ->
   exists ok,
     outcome (generate_qr w raw_text (strftime_now w "%Y-%m-%d_%H-%M-%S")
                "png" "black" "white") = Ok ok /\
     main w c a
     = ([Shown MBanner; Shown MMenuTitle; Shown MMenuChoose; Shown MMenuText;
         Shown MMenuWifi; Shown MMenuDecode;
         Asked AskChoice (Typed typed); Asked AskText (Typed raw_text)]
          ++ (Inner <$> trace_of (generate_qr w raw_text
                                    (strftime_now w "%Y-%m-%d_%H-%M-%S")
                                    "png" "black" "white"))
          ++ (if ok then [Shown MGenerated] else []),
        Done tt)).
Proof.
  intros Htask Hc Hs Ht.
  unfold main. rewrite (main_without_task w c a Htask).
  unfold main_interactive. top_steps. rewrite Hc. top_steps. rewrite Hs.
  change (String.eqb "1" "1") with true. cbn iota. rewrite Ht. top_steps.
  destruct (validate_input raw_text) as [is_valid message]. cbn [fst snd].
  split; intros ->; cbn [negb].
  - reflexivity.
  - destruct (generate_qr_returns w raw_text (strftime_now w "%Y-%m-%d_%H-%M-%S")
                "png" "black" "white") as [ok Hok].
    exists ok. split; [exact Hok|].
    rewrite (CliFacts.run_returns _ ok Hok).
    destruct ok; top_steps; rewrite ?app_nil_r; reflexivity.
Qed.

Lemma main_menu_text_uses_defaults_witness :
  exists ok,
    outcome (generate_qr calm_world "hello"
               (strftime_now calm_world "%Y-%m-%d_%H-%M-%S")
               "png" "black" "white") = Ok ok /\
    main calm_world text_user (Args None None None "svg" "red" "yellow" None)
    = ([Shown MBanner; Shown MMenuTitle; Shown MMenuChoose; Shown MMenuText;
        Shown MMenuWifi; Shown MMenuDecode;
        Asked AskChoice (Typed "1"); Asked AskText (Typed "hello")]
         ++ (Inner <$> trace_of (generate_qr calm_world "hello"
                                   (strftime_now calm_world "%Y-%m-%d_%H-%M-%S")
                                   "png" "black" "white"))
         ++ (if ok then [Shown MGenerated] else []),
       Done tt).
Proof.
  apply (proj2 (main_menu_text_uses_defaults calm_world text_user
                  (Args None None None "svg" "red" "yellow" None) "1" "hello"
                  eq_refl eq_refl eq_refl eq_refl)).
  reflexivity.
Defined.

(** X29. A menu choice other than 1, 2 and 3 (once stripped) is answered
    by the invalid-choice line alone: nothing more is asked, nothing is
    called, and [main] ends normally. *)
Theorem main_menu_invalid_choice (w : world) (c : console) (a : args) (typed : string) :
  has_task a = false ->
  input_line c AskChoice = Typed typed ->
  PyStr.strip typed <> "1" -> PyStr.strip typed <> "2" -> PyStr.strip typed <> "3" ->
  main w c a
  = ([Shown MBanner; Shown MMenuTitle; Shown MMenuChoose; Shown MMenuText;
      Shown MMenuWifi; Shown MMenuDecode;
      Asked AskChoice (Typed typed); Shown MInvalidChoice], Done tt).
Proof.
  intros Htask Hc H1 H2 H3.
  unfold main. rewrite (main_without_task w c a Htask).
  unfold main_interactive. top_steps. rewrite Hc. top_steps.
  apply String.eqb_neq in H1, H2, H3. rewrite H1, H2, H3. reflexivity.
Qed.

Lemma main_menu_invalid_choice_witness :
  main calm_world (Build_console (fun _ => Typed "12") (fun _ => Ok tt)) no_args
  = ([Shown MBanner; Shown MMenuTitle; Shown MMenuChoose; Shown MMenuText;
      Shown MMenuWifi; Shown MMenuDecode;
      Asked AskChoice (Typed "12"); Shown MInvalidChoice], Done tt).
Proof.
  apply (main_menu_invalid_choice calm_world
           (Build_console (fun _ => Typed "12") (fun _ => Ok tt)) no_args "12");
    first [reflexivity | discriminate].
Defined.
